(** * ts-can: the rule matcher [checkPermissions] and the aggregator [canAllow]

    A shallow embedding of [src/lib/can.ts].  The two exported functions are
    transcribed statement by statement.  What the TypeScript code leaves to
    the JavaScript run time is written out:

    - [Array.prototype.find] yields the first element whose callback result
      is truthy, or [undefined]; the caller then tests that ELEMENT for
      truthiness ([if (xs.find(..))], [!keys.find(..)]);
    - [rules.checks && rules.target] tests the target for truthiness;
    - calling [permModule.checks[check]] when the property is missing is a
      call of [undefined], which throws a [TypeError];
    - a check predicate is caller code: it yields a boolean or throws;
    - [permissions[name]], [permModule.abilities[name]] and
      [permModule.checks[name]] are property reads on plain objects: a name
      that is no own property is looked up in [Object.prototype], so the
      twelve names every plain object inherits ([constructor], [toString],
      [hasOwnProperty], ...) read as a function or an object, never as
      [undefined].  The three objects are taken to be plain objects, as
      object literals and the test suite make them, with [Object.prototype]
      as the engine provides it.  What five of its members answer depends on
      more of the target than its value here, and is a parameter ([Engine]).

    [TestRules] keeps the order in which [Object.keys] lists it, because
    [find] stops at the first hit. *)

From Stdlib Require Import Floats.SpecFloat.
From stdpp Require Import gmap strings list fin_maps.

Open Scope string_scope.
Open Scope list_scope.

(** ** JavaScript values, as far as the matcher looks at them *)

(** [Rules.target] is typed [unknown] and a predicate takes [any].  Numbers
    are IEEE 754 doubles; [VObject] stands for every object, arrays and
    functions included. *)
#[warnings="-register-all"]
Inductive Value : Type :=
| VUndefined
| VNull
| VBoolean (b : bool)
| VNumber (x : spec_float)
| VBigInt (n : Z)
| VString (s : string)
| VSymbol (description : string)
| VObject (props : list (string * Value)).

(** ECMAScript [ToBoolean]: what [if (v)], [!v] and [a && b] look at. *)
Definition ToBoolean (v : Value) : bool :=
  match v with
  | VUndefined | VNull => false
  | VBoolean b => b
  | VNumber (S754_zero _) | VNumber S754_nan => false
  | VNumber _ => true
  | VBigInt n => negb (Z.eqb n 0)
  | VString s => negb (String.eqb s "")
  | VSymbol _ | VObject _ => true
  end.

(** Property read [o.key] on an object value; a missing property reads as
    [undefined]. *)
Fixpoint Get (props : list (string * Value)) (key : string) : Value :=
  match props with
  | [] => VUndefined
  | (k, v) :: rest => if String.eqb k key then v else Get rest key
  end.

(** ** Evaluation: completions and the log of predicate invocations *)

Inductive Exception : Type :=
| TypeError (message : string)
| Thrown (v : Value).

Inductive Completion (A : Type) : Type :=
| Returns (a : A)
| Throws (e : Exception).
Arguments Returns {A} a.
Arguments Throws {A} e.

(** One call of [permModule.checks[check](rules.target)]: the name looked up
    in [Checks] and the argument the function found was applied to. *)
Record Call : Type := Invoke { callee : string; argument : Value }.

(** A run yields a completion and the predicate invocations it made, in
    order. *)
Record Run (A : Type) : Type := MkRun { completion : Completion A; calls : list Call }.
Arguments MkRun {A} completion calls.
Arguments completion {A} r.
Arguments calls {A} r.

Definition ret {A : Type} (a : A) : Run A := MkRun (Returns a) [].

Definition throw {A : Type} (e : Exception) : Run A := MkRun (Throws e) [].

(** Sequencing: a throw ends the run; the invocations add up. *)
Definition bind {A B : Type} (m : Run A) (k : A -> Run B) : Run B :=
  match completion m with
  | Returns a => let r := k a in MkRun (completion r) (calls m ++ calls r)
  | Throws e => MkRun (Throws e) (calls m)
  end.

Notation "'let*' x ':=' m 'in' k" := (bind m (fun x => k))
  (at level 10, x name, m at level 100, k at level 200).

(** ** The data model of [can.ts] *)

(** [type Abilities = { readonly [key: string]: boolean }] *)
Abbreviation Abilities := (gmap string bool).

(** A predicate [(target: any) => boolean]. *)
Abbreviation Check := (Value -> Completion bool).

(** [type Checks = { readonly [key: string]: (target: any) => boolean }] *)
Abbreviation Checks := (gmap string Check).

Module PermissionModule.
Record t : Type := Build { abilities : Abilities; checks : Checks }.
End PermissionModule.

(** [type Permissions = { readonly [key: string]: PermissionModule }] *)
Abbreviation Permissions := (gmap string PermissionModule.t).

(** [type Rules]: every field is optional; [None] is a field that is absent
    or holds [undefined] (a read cannot tell the two apart). *)
Module Rules.
Record t : Type := Build {
  module : option string;
  abilities : option (list string);
  checks : option (list string);
  target : option Value
}.
End Rules.

(** ** Property reads on plain objects *)

(** The own property names of [Object.prototype]: what every plain object
    inherits. *)
Definition Object_prototype_names : list string :=
  ["constructor"; "__defineGetter__"; "__defineSetter__"; "hasOwnProperty";
   "__lookupGetter__"; "__lookupSetter__"; "isPrototypeOf";
   "propertyIsEnumerable"; "toString"; "valueOf"; "__proto__"; "toLocaleString"].

Definition one_of (key : string) (names : list string) : bool :=
  existsb (String.eqb key) names.

Definition Object_prototype_has (key : string) : bool :=
  one_of key Object_prototype_names.

(** What the read [o[key]] finds on a plain object [o] with the given own
    properties: an own property, else a member of [Object.prototype] (a
    function, or [Object.prototype] itself under [__proto__]), else
    nothing, and the read yields [undefined]. *)
Inductive Property (V : Type) : Type :=
| Own (v : V)
| Inherited
| Absent.
Arguments Own {V} v.
Arguments Inherited {V}.
Arguments Absent {V}.

Definition Get_property {V : Type} (o : gmap string V) (key : string) : Property V :=
  match o !! key with
  | Some v => Own v
  | None => if Object_prototype_has key then Inherited else Absent
  end.

(** The part of the engine that the values modelled here do not determine.
    [hasOwnProperty], [propertyIsEnumerable], [__lookupGetter__] and
    [__lookupSetter__] convert their argument to a property key (for an
    object by calling its conversion methods) and [isPrototypeOf] walks the
    prototype chain of its argument.  [key_query member this argument] is
    how the call [this[member](argument)] of one of these five completes on
    a checks object [this], its result coerced by [!]. *)
Class Engine : Type := {
  key_query : string -> gmap string Check -> Value -> Completion bool
}.

(** [type TestRules = { readonly [key: string]: Rules }], as the list of its
    properties in the order of [Object.keys]. *)
Definition TestRules : Type := list (string * Rules.t).

(** [Object.keys(test)] *)
Definition Object_keys (test : TestRules) : list string := map fst test.

(** [test[key]] *)
Fixpoint TestRules_get (test : TestRules) (key : string) : option Rules.t :=
  match test with
  | [] => None
  | (k, r) :: rest => if String.eqb k key then Some r else TestRules_get rest key
  end.

(** The empty object literal [{}] as a [Rules]. *)
Definition empty_rules : Rules.t := Rules.Build None None None None.

(** The object literal [{ ...r, module: key }]; spreading [undefined] copies
    nothing. *)
Definition spread_with_module (r : option Rules.t) (key : string) : Rules.t :=
  let src := default empty_rules r in
  Rules.Build (Some key) (Rules.abilities src) (Rules.checks src) (Rules.target src).

(** The value read by [rules.target]. *)
Definition read_target (rules : Rules.t) : Value :=
  default VUndefined (Rules.target rules).

(** ** [Array.prototype.find] *)

(** The first element for which the callback yields a truthy result, or
    [undefined] ([None]); the callback is not called past that element, and a
    throw of the callback ends the search. *)
Fixpoint find {A : Type} (callbackFn : A -> Run bool) (l : list A) : Run (option A) :=
  match l with
  | [] => ret None
  | x :: rest =>
      let* hit := callbackFn x in
      if hit then ret (Some x) else find callbackFn rest
  end.

(** The result of [find] over strings as a value: an element or [undefined]. *)
Definition found_value (o : option string) : Value :=
  match o with
  | Some s => VString s
  | None => VUndefined
  end.

(** ** [checkPermissions] (can.ts, lines 98-128) *)

(** [permModule.abilities[ability]], coerced by [!]: an own flag, a member
    of [Object.prototype] (truthy), or [undefined]. *)
Definition ability_granted (permModule : PermissionModule.t) (ability : string) : bool :=
  match Get_property (PermissionModule.abilities permModule) ability with
  | Own granted => granted
  | Inherited => true
  | Absent => false
  end.

(** The [TypeError] thrown when [permModule.checks[check]] is [undefined]
    and is called. *)
Definition not_a_function : Exception :=
  TypeError "permModule.checks[check] is not a function".

(** The [TypeError] thrown by [__defineGetter__] and [__defineSetter__]
    when their second argument is no function. *)
Definition accessor_not_a_function : Exception :=
  TypeError "Object.prototype.__defineGetter__: Expecting function".

(** The [TypeError] thrown by a property read on [undefined]. *)
Definition reads_undefined : Exception :=
  TypeError "Cannot read properties of undefined".

(** The call [this[member](argument)] of a member of [Object.prototype] on a
    checks object, its result coerced by [!]; [None] when the member is not
    callable.  [constructor] is [Object], which returns an object;
    [toString] returns a non-empty string; [valueOf] returns [this];
    [toLocaleString] calls [this.toString()], which is the own check of that
    name when there is one; [__defineGetter__] and [__defineSetter__] throw,
    their second argument being [undefined]; [__proto__] reads as
    [Object.prototype], which is no function. *)
Definition Object_prototype_call `{Engine} (this : Checks) (member : string)
  (argument : Value) : option (Completion bool) :=
  if one_of member ["constructor"; "toString"; "valueOf"] then Some (Returns true)
  else if String.eqb member "toLocaleString" then
    Some (match this !! "toString" with
          | Some predicate => predicate VUndefined
          | None => Returns true
          end)
  else if one_of member ["__defineGetter__"; "__defineSetter__"] then
    Some (Throws accessor_not_a_function)
  else if one_of member ["hasOwnProperty"; "propertyIsEnumerable"; "isPrototypeOf";
                         "__lookupGetter__"; "__lookupSetter__"] then
    Some (key_query member this argument)
  else None.

(** [permModule.checks[check](rules.target)] *)
Definition call_check `{Engine} (permModule : PermissionModule.t) (check : string)
  (target : Value) : Run bool :=
  match Get_property (PermissionModule.checks permModule) check with
  | Own predicate => MkRun (predicate target) [Invoke check target]
  | Inherited =>
      match Object_prototype_call (PermissionModule.checks permModule) check target with
      | Some outcome => MkRun outcome [Invoke check target]
      | None => throw not_a_function
      end
  | Absent => throw not_a_function
  end.

(** Lines 109-117: whether the abilities block takes its [return false]. *)
Definition abilities_block (permModule : PermissionModule.t) (rules : Rules.t) : Run bool :=
  match Rules.abilities rules with
  | Some abilities =>
      let* found := find (fun ability => ret (negb (ability_granted permModule ability)))
                         abilities in
      ret (ToBoolean (found_value found))
  | None => ret false
  end.

(** Lines 118-126: whether the checks block takes its [return false]. *)
Definition checks_block `{Engine} (permModule : PermissionModule.t) (rules : Rules.t)
  : Run bool :=
  match Rules.checks rules with
  | Some checks =>
      if ToBoolean (read_target rules) then
        let* found := find (fun check =>
                              let* passed :=
                                call_check permModule check (read_target rules) in
                              ret (negb passed))
                           checks in
        ret (ToBoolean (found_value found))
      else ret false
  | None => ret false
  end.

(** Lines 109-117 when [permModule] is a member of [Object.prototype]: it
    has no property [abilities], so the callback throws on the first name. *)
Definition member_abilities_block (rules : Rules.t) : Run bool :=
  match Rules.abilities rules with
  | Some abilities =>
      let* found := find (fun ability : string => throw reads_undefined) abilities in
      ret (ToBoolean (found_value found))
  | None => ret false
  end.

(** Lines 118-126 when [permModule] is a member of [Object.prototype]: it
    has no property [checks], so the callback throws on the first name. *)
Definition member_checks_block (rules : Rules.t) : Run bool :=
  match Rules.checks rules with
  | Some checks =>
      if ToBoolean (read_target rules) then
        let* found := find (fun check : string => throw reads_undefined) checks in
        ret (ToBoolean (found_value found))
      else ret false
  | None => ret false
  end.

Definition checkPermissions `{Engine} (permissions : Permissions) (rules : Rules.t)
  : Run bool :=
  match Rules.module rules with
  | None => ret true
  | Some name =>
      if String.eqb name "undefined" then ret true
      else
        match Get_property permissions name with
        | Absent => ret false
        | Own permModule =>
            let* denied := abilities_block permModule rules in
            if denied then ret false
            else
              let* denied := checks_block permModule rules in
              if denied then ret false else ret true
        | Inherited =>
            let* denied := member_abilities_block rules in
            if denied then ret false
            else
              let* denied := member_checks_block rules in
              if denied then ret false else ret true
        end
  end.

(** ** [canAllow] (can.ts, lines 160-175) *)

Definition canAllow `{Engine} (permissions : Permissions) (test : TestRules)
  : Run bool :=
  let* found := find (fun key =>
                        let* ok :=
                          checkPermissions permissions
                            (spread_with_module (TestRules_get test key) key) in
                        ret (negb ok))
                     (Object_keys test) in
  ret (negb (ToBoolean (found_value found))).

(** ** An engine for the evaluations below *)

(** The property key of a target that is a string or a boolean. *)
Definition primitive_key (target : Value) : option string :=
  match target with
  | VString s => Some s
  | VBoolean true => Some "true"
  | VBoolean false => Some "false"
  | _ => None
  end.

(** The five key queries on targets whose key is determined here: strings
    and booleans.  Every other target is taken to name no own property of
    the checks object, not to be the key [__proto__], and not to inherit
    from the checks object, which is the case of the targets evaluated in
    this file. *)
Definition primitive_key_query (member : string) (this : Checks) (argument : Value)
  : Completion bool :=
  match primitive_key argument with
  | Some key =>
      if one_of member ["hasOwnProperty"; "propertyIsEnumerable"] then
        Returns (bool_decide (is_Some (this !! key)))
      else if one_of member ["__lookupGetter__"; "__lookupSetter__"] then
        Returns (String.eqb key "__proto__" && negb (bool_decide (is_Some (this !! key))))
      else Returns false
  | None => Returns false
  end.

#[global]
Instance primitive_keys : Engine := {| key_query := primitive_key_query |}.

(** ** The fixtures of the repository's tests (can.spec.ts) *)

(** A predicate of the shape [(target) => target.key]: the read throws on
    [undefined] and [null], a primitive has no such property, and the caller
    coerces the value read with [!]. *)
Definition property_check (key : string) : Check :=
  fun target =>
    match target with
    | VUndefined | VNull => Throws (TypeError "Cannot read properties of undefined")
    | VObject props => Returns (ToBoolean (Get props key))
    | _ => Returns false
    end.

Definition moduleA : PermissionModule.t :=
  PermissionModule.Build
    (<["read" := true]> (<["write" := false]> ∅))
    (<["isAdmin" := property_check "isAdmin"]> ∅).

Definition moduleB : PermissionModule.t :=
  PermissionModule.Build
    (<["read" := true]> (<["write" := true]> ∅))
    (<["hasAccess" := property_check "isValidUser"]> ∅).

Definition userPermissions : Permissions :=
  <["moduleA" := moduleA]> (<["moduleB" := moduleB]> ∅).

(** Inputs on which the matcher and the aggregator are evaluated below. *)

(** [{ m: { abilities: {}, checks: { deny: () => false } } }] *)
Definition denyModule : PermissionModule.t :=
  PermissionModule.Build ∅ (<["deny" := fun _ => Returns false]> ∅).

Definition denyPermissions : Permissions := <["m" := denyModule]> ∅.

(** The number [0]. *)
Definition zero : Value := VNumber (S754_zero false).

(** [{ module: 'm', checks: ['deny'], target: 0 }] *)
Definition rule_deny_zero : Rules.t :=
  Rules.Build (Some "m") None (Some ["deny"]) (Some zero).

(** [{ module: 'moduleA', abilities: ['', 'write'] }] *)
Definition rule_empty_then_write : Rules.t :=
  Rules.Build (Some "moduleA") (Some [""; "write"]) None None.

(** [{ '': {}, moduleA: { abilities: ['write'] } }] *)
Definition test_empty_label : TestRules :=
  [("", empty_rules); ("moduleA", Rules.Build None (Some ["write"]) None None)].

(** ** The readings the specification gives to the two idioms *)

(** [xs.some(callbackFn)]: whether the callback holds of some element, asked
    in order and stopping at the first hit.  The specification reads
    [if (xs.find(..))] and [!keys.find(..)] this way. *)
Fixpoint some {A : Type} (callbackFn : A -> Run bool) (l : list A) : Run bool :=
  match l with
  | [] => ret false
  | x :: rest =>
      let* hit := callbackFn x in
      if hit then ret true else some callbackFn rest
  end.

(** The effective rule of label [key]: [{ ...test[key], module: key }]. *)
Definition effective_rule (test : TestRules) (key : string) : Rules.t :=
  spread_with_module (TestRules_get test key) key.

(** The conjunction, over the labels in order, of the matcher's verdicts on
    the effective rules (section 4.2 of the specification). *)
Fixpoint allAllowed_spec `{Engine} (permissions : Permissions) (test : TestRules)
  (keys : list string) : Run bool :=
  match keys with
  | [] => ret true
  | key :: rest =>
      let* ok := checkPermissions permissions (effective_rule test key) in
      if ok then allAllowed_spec permissions test rest else ret false
  end.

(** A check that is declared in the module and returns [true] on the
    target. *)
Definition check_passes (permModule : PermissionModule.t) (target : Value)
  (check : string) : Prop :=
  exists predicate,
    PermissionModule.checks permModule !! check = Some predicate /\
    predicate target = Returns true.

(** The callback of the search at lines 120-122, on a target already read. *)
Definition checks_callback `{Engine} (permModule : PermissionModule.t) (target : Value)
  (check : string) : Run bool :=
  let* passed := call_check permModule check target in
  ret (negb passed).

(** The invocations of the listed checks on one target, in order. *)
Definition invocations (checks : list string) (target : Value) : list Call :=
  map (fun check => Invoke check target) checks.

(** ** The same two functions over objects held by reference

    JavaScript passes [permissions], [rules] and [test] by reference.  Here
    the objects live in a store, every property read of the source is a read
    of the store, and the object literal of [canAllow] allocates.  The source
    has no assignment to a property, so the store has no write. *)
Module Store.

Abbreviation loc := positive.

Inductive Object : Type :=
| OPermissions (permissions : gmap string PermissionModule.t)
| ORules (rules : Rules.t)
| OTestRules (props : list (string * loc)).

(** A computation over the store: a run and the store it leaves. *)
Definition Eff (A : Type) : Type := gmap loc Object -> Run A * gmap loc Object.

Definition pure {A : Type} (m : Run A) : Eff A := fun h => (m, h).

Definition seq {A B : Type} (m : Eff A) (k : A -> Eff B) : Eff B :=
  fun h =>
    let (r, h1) := m h in
    match completion r with
    | Returns a =>
        let (r2, h2) := k a h1 in
        (MkRun (completion r2) (calls r ++ calls r2), h2)
    | Throws e => (MkRun (Throws e) (calls r), h1)
    end.

Notation "'let!' x ':=' m 'in' k" := (seq m (fun x => k))
  (at level 10, x name, m at level 100, k at level 200).

(** Dereference; a reference to no object reads as [undefined]. *)
Definition load (l : loc) : Eff (option Object) := fun h => (ret (h !! l), h).

(** The object literal: a new object at a location not in use. *)
Definition alloc (o : Object) : Eff loc :=
  fun h => let l := fresh (dom h) in (ret l, <[l := o]> h).

(** [permissions[name]] *)
Definition get_module (permissions : loc) (name : string)
  : Eff (Property PermissionModule.t) :=
  let! o := load permissions in
  match o with
  | Some (OPermissions p) => pure (ret (Get_property p name))
  | _ => pure (ret Absent)
  end.

(** [rules.module], [rules.abilities], [rules.checks], [rules.target] *)
Definition get_field {A : Type} (rules : loc) (field : Rules.t -> option A)
  : Eff (option A) :=
  let! o := load rules in
  match o with
  | Some (ORules r) => pure (ret (field r))
  | _ => pure (ret None)
  end.

(** [Object.keys(test)] *)
Definition keys (test : loc) : Eff (list string) :=
  let! o := load test in
  match o with
  | Some (OTestRules props) => pure (ret (map fst props))
  | _ => pure (ret [])
  end.

Fixpoint assoc (props : list (string * loc)) (key : string) : option loc :=
  match props with
  | [] => None
  | (k, l) :: rest => if String.eqb k key then Some l else assoc rest key
  end.

(** [test[key]] *)
Definition get_rules (test : loc) (key : string) : Eff (option loc) :=
  let! o := load test in
  match o with
  | Some (OTestRules props) => pure (ret (assoc props key))
  | _ => pure (ret None)
  end.

(** [{ ...src, module: key }] *)
Definition spread_module (src : option loc) (key : string) : Eff loc :=
  let! o := match src with
            | Some l => load l
            | None => pure (ret None)
            end in
  match o with
  | Some (ORules r) => alloc (ORules (spread_with_module (Some r) key))
  | _ => alloc (ORules (spread_with_module None key))
  end.

Fixpoint find {A : Type} (callbackFn : A -> Eff bool) (l : list A) : Eff (option A) :=
  match l with
  | [] => pure (ret None)
  | x :: rest =>
      let! hit := callbackFn x in
      if hit then pure (ret (Some x)) else find callbackFn rest
  end.

(** Lines 109-117, on the value read by [permissions[name]]. *)
Definition abilities_block (permModule : Property PermissionModule.t) (rules : loc)
  : Eff bool :=
  let! abilities := get_field rules Rules.abilities in
  match abilities with
  | Some abilities =>
      let! found :=
        find (fun ability =>
                match permModule with
                | Own m => pure (ret (negb (ability_granted m ability)))
                | _ => pure (throw reads_undefined)
                end)
             abilities in
      pure (ret (ToBoolean (found_value found)))
  | None => pure (ret false)
  end.

(** Lines 118-126, on the value read by [permissions[name]]. *)
Definition checks_block `{Engine} (permModule : Property PermissionModule.t)
  (rules : loc) : Eff bool :=
  let! checks := get_field rules Rules.checks in
  let! target := get_field rules Rules.target in
  match checks with
  | Some checks =>
      if ToBoolean (default VUndefined target) then
        let! found :=
          find (fun check =>
                  match permModule with
                  | Own m =>
                      let! target := get_field rules Rules.target in
                      let! passed :=
                        pure (call_check m check (default VUndefined target)) in
                      pure (ret (negb passed))
                  | _ => pure (throw reads_undefined)
                  end)
               checks in
        pure (ret (ToBoolean (found_value found)))
      else pure (ret false)
  | None => pure (ret false)
  end.

Definition checkPermissions `{Engine} (permissions rules : loc) : Eff bool :=
  let! module := get_field rules Rules.module in
  match module with
  | None => pure (ret true)
  | Some name =>
      if String.eqb name "undefined" then pure (ret true)
      else
        let! permModule := get_module permissions name in
        match permModule with
        | Absent => pure (ret false)
        | _ =>
            let! denied := abilities_block permModule rules in
            if denied then pure (ret false)
            else
              let! denied := checks_block permModule rules in
              if denied then pure (ret false) else pure (ret true)
        end
  end.

Definition canAllow `{Engine} (permissions test : loc) : Eff bool :=
  let! labels := keys test in
  let! found :=
    find (fun key =>
            let! src := get_rules test key in
            let! effective := spread_module src key in
            let! ok := checkPermissions permissions effective in
            pure (ret (negb ok)))
         labels in
  pure (ret (negb (ToBoolean (found_value found)))).

(** The test object [test] of the store, with its rules dereferenced. *)
Definition resolve (h : gmap loc Object) (props : list (string * loc))
  (test : TestRules) : Prop :=
  Forall2 (fun pl kr => fst pl = fst kr /\ h !! snd pl = Some (ORules (snd kr)))
          props test.

(** A computation that leaves every store as it found it. *)
Definition read_only {A : Type} (m : Eff A) : Prop :=
  forall h, snd (m h) = h.

(** A computation that keeps every object of the store it found: the store
    it leaves holds the same object at each location in use before. *)
Definition preserving {A : Type} (m : Eff A) : Prop :=
  forall h l o, h !! l = Some o -> snd (m h) !! l = Some o.

End Store.

(** Case analysis on what a read of the store returned. *)
Ltac case_read :=
  match goal with
  | |- Store.read_only (match ?x with _ => _ end) => destruct x
  end.

(** * Properties *)

(** ** The test suite of the repository (can.spec.ts) *)

Example test_has_required_permissions :
  checkPermissions userPermissions
    (Rules.Build (Some "moduleA") (Some ["read"]) None None) = ret true.
Proof. reflexivity. Qed.

Example test_lacks_required_abilities :
  checkPermissions userPermissions
    (Rules.Build (Some "moduleA") (Some ["write"]) None None) = ret false.
Proof. reflexivity. Qed.

Example test_lacks_required_checks :
  completion
    (checkPermissions userPermissions
       (Rules.Build (Some "moduleB") None (Some ["hasAccess"])
          (Some (VObject [("isValidUser", VBoolean false)]))))
  = Returns false.
Proof. reflexivity. Qed.

Example test_no_specific_rules :
  checkPermissions userPermissions empty_rules = ret true.
Proof. reflexivity. Qed.

Example test_undefined_module :
  checkPermissions userPermissions
    (Rules.Build None (Some ["read"]) None None) = ret true.
Proof. reflexivity. Qed.

Example test_undefined_abilities :
  checkPermissions userPermissions
    (Rules.Build (Some "moduleA") None None None) = ret true.
Proof. reflexivity. Qed.

Example test_non_existent_module :
  checkPermissions userPermissions
    (Rules.Build (Some "nonExistentModule") (Some ["read"]) None None) = ret false.
Proof. reflexivity. Qed.

Example test_canAllow_all_rules_pass :
  completion
    (canAllow userPermissions
       [("moduleA", Rules.Build None (Some ["read"]) None None);
        ("moduleB", Rules.Build None None (Some ["hasAccess"])
                      (Some (VObject [("isValidUser", VBoolean true)])))])
  = Returns true.
Proof. reflexivity. Qed.

Example test_canAllow_one_rule_fails :
  completion
    (canAllow userPermissions
       [("moduleA", Rules.Build None (Some ["write"]) None None);
        ("moduleB", Rules.Build None None (Some ["hasAccess"])
                      (Some (VObject [("isValidUser", VBoolean false)])))])
  = Returns false.
Proof. reflexivity. Qed.

(** ** Names inherited from [Object.prototype] *)

Example inherited_ability_is_granted :
  checkPermissions userPermissions
    (Rules.Build (Some "moduleA") (Some ["toString"]) None None) = ret true.
Proof. reflexivity. Qed.

Example own_flag_shadows_inherited_member :
  checkPermissions
    (<["m" := PermissionModule.Build (<["toString" := false]> ∅) ∅]> ∅)
    (Rules.Build (Some "m") (Some ["toString"]) None None) = ret false.
Proof. reflexivity. Qed.

Example inherited_hasOwnProperty_denies :
  checkPermissions userPermissions
    (Rules.Build (Some "moduleB") None (Some ["hasOwnProperty"]) (Some (VObject [])))
  = MkRun (Returns false) [Invoke "hasOwnProperty" (VObject [])].
Proof. reflexivity. Qed.

Example inherited_proto_is_no_function :
  checkPermissions userPermissions
    (Rules.Build (Some "moduleB") None (Some ["__proto__"]) (Some (VObject [])))
  = throw not_a_function.
Proof. reflexivity. Qed.

Example toLocaleString_calls_own_toString :
  checkPermissions
    (<["m" := PermissionModule.Build ∅ (<["toString" := fun _ => Returns false]> ∅)]> ∅)
    (Rules.Build (Some "m") None (Some ["toLocaleString"]) (Some (VObject [])))
  = MkRun (Returns false) [Invoke "toLocaleString" (VObject [])].
Proof. reflexivity. Qed.

(** ** Laws of sequencing *)

Lemma bind_ret_l {A B : Type} (a : A) (k : A -> Run B) :
  (let* x := ret a in k x) = k a.
Proof. unfold bind; simpl. by destruct (k a). Qed.

Lemma bind_ret_r {A : Type} (m : Run A) :
  (let* x := m in ret x) = m.
Proof.
  destruct m as [[a | e] log]; unfold bind; simpl; [| done].
  by rewrite app_nil_r.
Qed.

Lemma bind_assoc {A B C : Type} (m : Run A) (k : A -> Run B) (k' : B -> Run C) :
  (let* y := (let* x := m in k x) in k' y) = (let* x := m in let* y := k x in k' y).
Proof.
  destruct m as [[a | e] log]; unfold bind; simpl; [| done].
  destruct (k a) as [[b | e] log']; simpl; [| done].
  by rewrite app_assoc.
Qed.

Lemma bind_throw {A B : Type} (e : Exception) (k : A -> Run B) :
  (let* x := throw e in k x) = throw e.
Proof. done. Qed.

Lemma bind_ext {A B : Type} (m : Run A) (k k' : A -> Run B) :
  (forall a, completion m = Returns a -> k a = k' a) ->
  (let* x := m in k x) = (let* x := m in k' x).
Proof.
  intros Hk. unfold bind. destruct (completion m) as [a | e] eqn:Hm; [| done].
  by rewrite (Hk a).
Qed.

(** ** [find] and the test of its result *)

(** Over a callback that calls nothing, [find] is the list's own search. *)
Lemma find_pure {A : Type} (f : A -> bool) (l : list A) :
  find (fun x => ret (f x)) l = ret (List.find f l).
Proof.
  induction l as [| x rest IH]; simpl; [done |].
  rewrite bind_ret_l. by destruct (f x).
Qed.

Lemma ToBoolean_found (o : option string) :
  ToBoolean (found_value o) = true <-> exists s, o = Some s /\ s <> "".
Proof.
  destruct o as [s |]; simpl.
  - rewrite negb_true_iff. split.
    + intros Hs. exists s. split; [done |]. intros ->. by rewrite String.eqb_refl in Hs.
    + intros (s' & [= <-] & Hne). by apply String.eqb_neq.
  - split; [done |]. by intros (s & ? & _).
Qed.

(** When no listed name is the empty string, testing the result of [find]
    is the search for some element. *)
Lemma find_then_test (callbackFn : string -> Run bool) (l : list string) :
  "" ∉ l ->
  (let* found := find callbackFn l in ret (ToBoolean (found_value found)))
  = some callbackFn l.
Proof.
  induction l as [| x rest IH]; intros Hne; simpl.
  - by rewrite bind_ret_l.
  - rewrite bind_assoc. apply bind_ext. intros [] _.
    + rewrite bind_ret_l; simpl.
      destruct (String.eqb_spec x ""); [| done].
      subst. exfalso. apply Hne. left.
    + apply IH. intros Hin. apply Hne. by right.
Qed.

(** ** The two blocks of [checkPermissions] *)

(** The abilities block invokes no predicate and cannot throw: it returns
    whether the name found, if any, is truthy. *)
Lemma abilities_block_run (m : PermissionModule.t) (r : Rules.t) :
  abilities_block m r =
  ret (match Rules.abilities r with
       | Some names =>
           ToBoolean (found_value
             (List.find (fun ability => negb (ability_granted m ability)) names))
       | None => false
       end).
Proof.
  unfold abilities_block. destruct (Rules.abilities r) as [names |]; [| done].
  by rewrite find_pure, bind_ret_l.
Qed.



(** Without a checks list, or with a target that is not truthy, the checks
    block is skipped. *)
Lemma checks_block_skipped `{Engine} (m : PermissionModule.t) (r : Rules.t) :
  Rules.checks r = None \/ ToBoolean (read_target r) = false ->
  checks_block m r = ret false.
Proof.
  unfold checks_block. intros [-> | Hfalsy]; [done |].
  rewrite Hfalsy. by destruct (Rules.checks r).
Qed.

(** The matcher on a rule whose module resolves. *)
Lemma checkPermissions_resolved `{Engine} (p : Permissions) (r : Rules.t)
  (name : string) (m : PermissionModule.t) :
  Rules.module r = Some name -> name <> "undefined" -> p !! name = Some m ->
  checkPermissions p r =
  (let* denied := abilities_block m r in
   if denied then ret false
   else let* denied := checks_block m r in
        if denied then ret false else ret true).
Proof.
  intros Hmod Hname Hp. unfold checkPermissions, Get_property. rewrite Hmod.
  apply String.eqb_neq in Hname. by rewrite Hname, Hp.
Qed.

(** Lines 102-104: the early [return true]. *)
Lemma checkPermissions_bypass `{Engine} (p : Permissions) (r : Rules.t) :
  Rules.module r = None \/ Rules.module r = Some "undefined" ->
  checkPermissions p r = ret true.
Proof.
  unfold checkPermissions. by intros [-> | ->].
Qed.

(** ** The claims on module resolution *)

(** C4. A rule whose module is absent, or is the string "undefined", passes:
    the matcher returns true and invokes nothing, whatever the permissions
    and the other fields of the rule are. *)
Theorem C4_absent_or_undefined_module_passes `{Engine} (p : Permissions) (r : Rules.t) :
  Rules.module r = None \/ Rules.module r = Some "undefined" ->
  checkPermissions p r = ret true.
Proof.
  apply checkPermissions_bypass.
Qed.

Lemma C4_witness :
  checkPermissions ∅
    (Rules.Build (Some "undefined") (Some ["read"]) (Some ["isAdmin"]) (Some zero))
  = ret true.
Proof.
  apply (C4_absent_or_undefined_module_passes ∅
           (Rules.Build (Some "undefined") (Some ["read"]) (Some ["isAdmin"]) (Some zero))).
  right. reflexivity.
Defined.

(** A module name that is no own property of the permissions and no member
    of [Object.prototype] reads as [undefined]: the matcher returns false,
    whatever the abilities, checks and target of the rule are. *)
Lemma unknown_module_denied `{Engine} (p : Permissions) (r : Rules.t) (name : string) :
  Rules.module r = Some name -> name <> "undefined" ->
  p !! name = None -> Object_prototype_has name = false ->
  checkPermissions p r = ret false.
Proof.
  intros Hmod Hname Hp Hproto. unfold checkPermissions, Get_property. rewrite Hmod.
  apply String.eqb_neq in Hname. by rewrite Hname, Hp, Hproto.
Qed.

(** C5, on the code.  The module names [constructor] and [toString] are
    keys of no permissions map here, and are not the string "undefined".
    Against the empty permissions, the rule [{ module: 'constructor' }] is
    allowed: [permissions['constructor']] reads the inherited function
    [Object], which is truthy, and nothing else is asked.  Against the
    permissions of the test suite, [{ module: 'toString' }] is allowed as
    well, and [{ module: 'toString', abilities: ['read'] }] makes the matcher
    throw, since the inherited function has no [abilities].  In no case is
    false returned. *)
Theorem C5_inherited_module_name_is_not_denied :
  (∅ : Permissions) !! "constructor" = None /\
  userPermissions !! "toString" = None /\
  checkPermissions ∅ (Rules.Build (Some "constructor") None None None) = ret true /\
  checkPermissions userPermissions (Rules.Build (Some "toString") None None None)
    = ret true /\
  checkPermissions userPermissions
    (Rules.Build (Some "toString") (Some ["read"]) None None) = throw reads_undefined.
Proof.
  repeat split.
Qed.

(** C9. With an entry under the key "undefined" in the permissions, a rule
    whose module is "undefined" still passes, and the entry is never read:
    replacing it changes no verdict of the matcher, on any rule, and none of
    the aggregator, on any test rules. *)
Theorem C9_undefined_entry_unreachable `{Engine} (p : Permissions) (m : PermissionModule.t)
  (r : Rules.t) :
  p !! "undefined" = Some m -> Rules.module r = Some "undefined" ->
  checkPermissions p r = ret true /\
  (forall m' r', checkPermissions (<["undefined" := m']> p) r' = checkPermissions p r') /\
  (forall m' t, canAllow (<["undefined" := m']> p) t = canAllow p t).
Proof.
  intros _ Hmod.
  assert (Hsame : forall m' r',
             checkPermissions (<["undefined" := m']> p) r' = checkPermissions p r').
  { intros m' r'. unfold checkPermissions, Get_property.
    destruct (Rules.module r') as [name |]; [| done].
    destruct (String.eqb_spec name "undefined") as [-> | Hne]; [done |].
    by rewrite lookup_insert_ne. }
  split; [| split].
  - apply checkPermissions_bypass. by right.
  - exact Hsame.
  - intros m' t. unfold canAllow. f_equal.
    induction (Object_keys t) as [| key rest IH]; simpl; [done |].
    by rewrite Hsame, IH.
Qed.

Lemma C9_witness :
  checkPermissions (<["undefined" := denyModule]> ∅)
    (Rules.Build (Some "undefined") (Some ["read"]) (Some ["deny"])
       (Some (VObject [])))
  = ret true.
Proof.
  apply (C9_undefined_entry_unreachable (<["undefined" := denyModule]> ∅) denyModule
           (Rules.Build (Some "undefined") (Some ["read"]) (Some ["deny"])
              (Some (VObject [])))).
  - reflexivity.
  - reflexivity.
Defined.

(** ** The claims on the target and the checks list *)

(** C6. With a checks list and no target, the matcher does what it does on
    the same rule without the checks field, and it invokes no predicate. *)
Theorem C6_checks_without_target `{Engine} (p : Permissions) (r : Rules.t) (names : list string) :
  Rules.checks r = Some names -> Rules.target r = None ->
  checkPermissions p r =
    checkPermissions p
      (Rules.Build (Rules.module r) (Rules.abilities r) None (Rules.target r)) /\
  calls (checkPermissions p r) = [].
Proof.
  destruct r as [module abilities checks target]; simpl. intros -> ->.
  unfold checkPermissions; simpl.
  destruct module as [name |]; [| done].
  destruct (String.eqb name "undefined"); [done |].
  destruct (Get_property p name) as [m | |]; [| | done].
  - rewrite !abilities_block_run; simpl. rewrite !bind_ret_l.
    match goal with |- context [if ?b then _ else _] => by destruct b end.
  - unfold member_abilities_block, member_checks_block; simpl.
    destruct abilities as [[| ability rest] |]; done.
Qed.

Lemma C6_witness :
  checkPermissions denyPermissions
    (Rules.Build (Some "m") None (Some ["deny"; "missing"]) None)
  = checkPermissions denyPermissions (Rules.Build (Some "m") None None None) /\
  calls (checkPermissions denyPermissions
           (Rules.Build (Some "m") None (Some ["deny"; "missing"]) None)) = [].
Proof.
  apply (C6_checks_without_target denyPermissions
           (Rules.Build (Some "m") None (Some ["deny"; "missing"]) None)
           ["deny"; "missing"]).
  - reflexivity.
  - reflexivity.
Defined.

(** C10. Two rules that differ in their target only, and carry no checks
    list, get the same run of the matcher: the same completion and the same
    invocations. *)
Theorem C10_target_irrelevant_without_checks `{Engine} (p : Permissions)
  (module : option string) (abilities : option (list string)) (t1 t2 : option Value) :
  checkPermissions p (Rules.Build module abilities None t1) =
  checkPermissions p (Rules.Build module abilities None t2).
Proof.
  unfold checkPermissions; simpl.
  destruct module as [name |]; [| done].
  destruct (String.eqb name "undefined"); [done |].
  destruct (Get_property p name) as [m | |]; [| done | done].
  by rewrite !abilities_block_run.
Qed.

(** ** The search through the checks list *)

Section ChecksSearch.

Context {engine : Engine}.
Variable m : PermissionModule.t.
Variable tgt : Value.

Lemma checks_callback_passes (c : string) :
  check_passes m tgt c ->
  checks_callback m tgt c = MkRun (Returns false) [Invoke c tgt].
Proof.
  intros (f & Hf & Htrue). unfold checks_callback, call_check, Get_property, bind.
  by rewrite Hf, Htrue.
Qed.

Lemma checks_callback_fails (c : string) (f : Check) :
  PermissionModule.checks m !! c = Some f -> f tgt = Returns false ->
  checks_callback m tgt c = MkRun (Returns true) [Invoke c tgt].
Proof.
  intros Hf Hfalse. unfold checks_callback, call_check, Get_property, bind.
  by rewrite Hf, Hfalse.
Qed.

Lemma checks_callback_throws (c : string) (f : Check) (e : Exception) :
  PermissionModule.checks m !! c = Some f -> f tgt = Throws e ->
  checks_callback m tgt c = MkRun (Throws e) [Invoke c tgt].
Proof.
  intros Hf Hthrows. unfold checks_callback, call_check, Get_property, bind.
  by rewrite Hf, Hthrows.
Qed.

(** A name that is neither an own check nor a member of [Object.prototype]
    reads as [undefined], and the call throws. *)
Lemma checks_callback_undeclared (c : string) :
  PermissionModule.checks m !! c = None -> Object_prototype_has c = false ->
  checks_callback m tgt c = throw not_a_function.
Proof.
  intros Hc Hproto. unfold checks_callback, call_check, Get_property.
  by rewrite Hc, Hproto.
Qed.

(** A name that is no own check but a member of [Object.prototype]: the
    member is called, if it is callable. *)
Lemma checks_callback_inherited (c : string) :
  PermissionModule.checks m !! c = None -> Object_prototype_has c = true ->
  checks_callback m tgt c =
  match Object_prototype_call (PermissionModule.checks m) c tgt with
  | Some (Returns passed) => MkRun (Returns (negb passed)) [Invoke c tgt]
  | Some (Throws e) => MkRun (Throws e) [Invoke c tgt]
  | None => throw not_a_function
  end.
Proof.
  intros Hc Hproto. unfold checks_callback, call_check, Get_property, bind.
  rewrite Hc, Hproto.
  by destruct (Object_prototype_call (PermissionModule.checks m) c tgt) as [[[] | e] |].
Qed.

(** Every name is in one of these cases. *)
Lemma checks_callback_cases (c : string) :
  check_passes m tgt c \/
  (exists f, PermissionModule.checks m !! c = Some f /\ f tgt = Returns false) \/
  (exists f e, PermissionModule.checks m !! c = Some f /\ f tgt = Throws e) \/
  (PermissionModule.checks m !! c = None /\ Object_prototype_has c = false) \/
  (PermissionModule.checks m !! c = None /\ Object_prototype_has c = true).
Proof.
  destruct (PermissionModule.checks m !! c) as [f |] eqn:Hc.
  - destruct (f tgt) as [[] | e] eqn:Hf.
    + left. by exists f.
    + right; left. by exists f.
    + right; right; left. by exists f, e.
  - destruct (Object_prototype_has c); [by right; right; right; right |].
    by right; right; right; left.
Qed.

(** The callback makes at most one call, of the name it is given on the
    target, and it has made that call when it returns false. *)
Lemma checks_callback_calls (c : string) :
  (calls (checks_callback m tgt c) = [] \/
   calls (checks_callback m tgt c) = [Invoke c tgt]) /\
  (completion (checks_callback m tgt c) = Returns false ->
   calls (checks_callback m tgt c) = [Invoke c tgt]).
Proof.
  destruct (checks_callback_cases c)
    as [Hpass | [(f & Hf & Hfalse) | [(f & e & Hf & Hthrows) | [[Hc Hp] | [Hc Hp]]]]].
  - rewrite (checks_callback_passes c Hpass). by split; [right |].
  - rewrite (checks_callback_fails c f Hf Hfalse). by split; [right |].
  - rewrite (checks_callback_throws c f e Hf Hthrows). by split; [right |].
  - rewrite (checks_callback_undeclared c Hc Hp). by split; [left |].
  - rewrite (checks_callback_inherited c Hc Hp).
    destruct (Object_prototype_call (PermissionModule.checks m) c tgt) as [[[] | e] |];
      simpl; by split; [first [by left | by right] |].
Qed.

(** The search walks through the checks that pass, invoking each. *)
Lemma find_checks_prefix (pre rest : list string) :
  Forall (check_passes m tgt) pre ->
  find (checks_callback m tgt) (pre ++ rest) =
  MkRun (completion (find (checks_callback m tgt) rest))
        (invocations pre tgt ++ calls (find (checks_callback m tgt) rest)).
Proof.
  induction 1 as [| c pre Hc _ IH]; simpl.
  - by destruct (find _ rest).
  - rewrite (checks_callback_passes c Hc). unfold bind at 1; simpl. by rewrite IH.
Qed.

Lemma find_checks_all_pass (names : list string) :
  Forall (check_passes m tgt) names ->
  find (checks_callback m tgt) names = MkRun (Returns None) (invocations names tgt).
Proof.
  intros H. rewrite <- (app_nil_r names) at 1.
  rewrite (find_checks_prefix names [] H); simpl. by rewrite app_nil_r.
Qed.

Lemma find_checks_first_fails (pre post : list string) (c : string) (f : Check) :
  Forall (check_passes m tgt) pre ->
  PermissionModule.checks m !! c = Some f -> f tgt = Returns false ->
  find (checks_callback m tgt) (pre ++ c :: post) =
  MkRun (Returns (Some c)) (invocations (pre ++ [c]) tgt).
Proof.
  intros Hpre Hf Hfalse. rewrite (find_checks_prefix pre _ Hpre); simpl.
  rewrite (checks_callback_fails c f Hf Hfalse). unfold bind; simpl.
  unfold invocations. by rewrite map_app.
Qed.

Lemma find_checks_first_throws (pre post : list string) (c : string) (f : Check)
  (e : Exception) :
  Forall (check_passes m tgt) pre ->
  PermissionModule.checks m !! c = Some f -> f tgt = Throws e ->
  find (checks_callback m tgt) (pre ++ c :: post) =
  MkRun (Throws e) (invocations (pre ++ [c]) tgt).
Proof.
  intros Hpre Hf Hthrows. rewrite (find_checks_prefix pre _ Hpre); simpl.
  rewrite (checks_callback_throws c f e Hf Hthrows). unfold bind; simpl.
  unfold invocations. by rewrite map_app.
Qed.

Lemma find_checks_first_undeclared (pre post : list string) (c : string) :
  Forall (check_passes m tgt) pre ->
  PermissionModule.checks m !! c = None -> Object_prototype_has c = false ->
  find (checks_callback m tgt) (pre ++ c :: post) =
  MkRun (Throws not_a_function) (invocations pre tgt).
Proof.
  intros Hpre Hc Hproto. rewrite (find_checks_prefix pre _ Hpre); simpl.
  rewrite (checks_callback_undeclared c Hc Hproto). unfold bind; simpl.
  by rewrite app_nil_r.
Qed.

(** A checks list either passes as a whole or has a first name that does
    not pass. *)
Lemma checks_split (names : list string) :
  Forall (check_passes m tgt) names \/
  exists (pre : list string) (c : string) (post : list string),
    names = pre ++ c :: post /\ Forall (check_passes m tgt) pre /\
    ~ check_passes m tgt c.
Proof.
  induction names as [| c rest IH]; [by left |].
  destruct (checks_callback_cases c) as [Hc | Hc].
  - destruct IH as [Hall | (pre & c' & post & -> & Hpre & Hc')].
    + left. by constructor.
    + right. exists (c :: pre), c', post. repeat split; [by constructor | done].
  - right. exists [], c, rest. repeat split; [constructor |].
    intros (f & Hf & Htrue).
    destruct Hc as [(f' & Hf' & Hfalse) | [(f' & e & Hf' & Hthrows) | [[Hnone _] | [Hnone _]]]];
      congruence.
Qed.

End ChecksSearch.

(** The checks block when it is entered. *)
Lemma checks_block_entered `{Engine} (m : PermissionModule.t) (r : Rules.t)
  (names : list string) :
  Rules.checks r = Some names -> ToBoolean (read_target r) = true ->
  checks_block m r =
  (let* found := find (checks_callback m (read_target r)) names in
   ret (ToBoolean (found_value found))).
Proof.
  intros Hchecks Htruthy. unfold checks_block. by rewrite Hchecks, Htruthy.
Qed.

(** The matcher on a resolved rule whose abilities block passes and whose
    checks block is entered: the verdict is the negated test of the name
    found. *)
Lemma checkPermissions_checks_run `{Engine} (p : Permissions) (r : Rules.t) (name : string)
  (m : PermissionModule.t) (names : list string) (tgt : Value) :
  Rules.module r = Some name -> name <> "undefined" -> p !! name = Some m ->
  Rules.checks r = Some names -> Rules.target r = Some tgt -> ToBoolean tgt = true ->
  abilities_block m r = ret false ->
  checkPermissions p r =
  (let* found := find (checks_callback m tgt) names in
   ret (negb (ToBoolean (found_value found)))).
Proof.
  intros Hmod Hname Hp Hchecks Htarget Htruthy Habilities.
  assert (Hread : read_target r = tgt) by (unfold read_target; by rewrite Htarget).
  rewrite (checkPermissions_resolved p r name m Hmod Hname Hp).
  rewrite Habilities, bind_ret_l.
  rewrite (checks_block_entered m r names Hchecks) by (by rewrite Hread).
  rewrite Hread, bind_assoc. apply bind_ext. intros found _.
  rewrite bind_ret_l. by destruct (ToBoolean (found_value found)).
Qed.




(** C3, as the code has it.  On a resolved module, with a checks list that
    names neither the empty string nor an undeclared member of
    [Object.prototype], a TRUTHY target and the abilities block passed: the
    matcher returns true exactly when every listed check is declared and
    returns true on the target, and then each of them has been invoked on
    the target once, in order; and when the first check that does not
    return true returns false, the matcher returns false, having invoked the
    checks up to that one. *)
Theorem C3_checks_on_truthy_target `{Engine} (p : Permissions) (r : Rules.t) (name : string)
  (m : PermissionModule.t) (names : list string) (tgt : Value) :
  Rules.module r = Some name -> name <> "undefined" -> p !! name = Some m ->
  Rules.checks r = Some names ->
  Rules.target r = Some tgt -> ToBoolean tgt = true ->
  "" ∉ names ->
  (forall c, c ∈ names -> PermissionModule.checks m !! c = None ->
             Object_prototype_has c = false) ->
  abilities_block m r = ret false ->
  (completion (checkPermissions p r) = Returns true <->
     Forall (check_passes m tgt) names) /\
  (Forall (check_passes m tgt) names ->
     calls (checkPermissions p r) = invocations names tgt) /\
  (forall (pre post : list string) (c : string) (f : Check),
     names = pre ++ c :: post -> Forall (check_passes m tgt) pre ->
     PermissionModule.checks m !! c = Some f -> f tgt = Returns false ->
     checkPermissions p r = MkRun (Returns false) (invocations (pre ++ [c]) tgt)).
Proof.
  intros Hmod Hname Hp Hchecks Htarget Htruthy Hnonempty Hown Habilities.
  rewrite (checkPermissions_checks_run p r name m names tgt
             Hmod Hname Hp Hchecks Htarget Htruthy Habilities).
  assert (Hdenied : forall (pre post : list string) (c : string) (f : Check),
             names = pre ++ c :: post -> Forall (check_passes m tgt) pre ->
             PermissionModule.checks m !! c = Some f -> f tgt = Returns false ->
             (let* found := find (checks_callback m tgt) names in
              ret (negb (ToBoolean (found_value found))))
             = MkRun (Returns false) (invocations (pre ++ [c]) tgt)).
  { intros pre post c f Hsplit Hpre Hf Hfalse.
    rewrite Hsplit, (find_checks_first_fails m tgt pre post c f Hpre Hf Hfalse).
    unfold bind; simpl. rewrite app_nil_r.
    destruct (String.eqb_spec c "") as [-> | _]; [| done].
    exfalso. apply Hnonempty. rewrite Hsplit. set_solver. }
  split; [split | split].
  - intros Htrue.
    destruct (checks_split m tgt names) as [Hall | (pre & c & post & Hsplit & Hpre & Hc)];
      [done |]. exfalso.
    assert (Hin : c ∈ names) by (rewrite Hsplit; set_solver).
    destruct (checks_callback_cases m tgt c)
      as [Hpass | [(f & Hf & Hfalse) | [(f & e & Hf & Hthrows) | [[Hnone Hproto] | [Hnone Hproto]]]]].
    + done.
    + by rewrite (Hdenied pre post c f Hsplit Hpre Hf Hfalse) in Htrue.
    + rewrite Hsplit in Htrue.
      by rewrite (find_checks_first_throws m tgt pre post c f e Hpre Hf Hthrows) in Htrue.
    + rewrite Hsplit in Htrue.
      by rewrite (find_checks_first_undeclared m tgt pre post c Hpre Hnone Hproto)
        in Htrue.
    + rewrite (Hown c Hin Hnone) in Hproto. discriminate Hproto.
  - intros Hall. by rewrite (find_checks_all_pass m tgt names Hall).
  - intros Hall. rewrite (find_checks_all_pass m tgt names Hall).
    unfold bind; simpl. by rewrite app_nil_r.
  - exact Hdenied.
Qed.

Lemma C3_witness :
  completion
    (checkPermissions userPermissions
       (Rules.Build (Some "moduleB") None (Some ["hasAccess"])
          (Some (VObject [("isValidUser", VBoolean false)]))))
  = Returns true <->
  Forall (check_passes moduleB (VObject [("isValidUser", VBoolean false)])) ["hasAccess"].
Proof.
  apply (C3_checks_on_truthy_target userPermissions
           (Rules.Build (Some "moduleB") None (Some ["hasAccess"])
              (Some (VObject [("isValidUser", VBoolean false)])))
           "moduleB" moduleB ["hasAccess"]
           (VObject [("isValidUser", VBoolean false)])).
  - reflexivity.
  - discriminate.
  - reflexivity.
  - reflexivity.
  - reflexivity.
  - reflexivity.
  - intros Hin. apply list_elem_of_In in Hin. simpl in Hin.
    destruct Hin as [Heq | []]. discriminate Heq.
  - intros c Hin _. apply list_elem_of_In in Hin. simpl in Hin.
    destruct Hin as [<- | []]. reflexivity.
  - reflexivity.
Defined.

(** C3, as the specification states it, fails on a target that is provided
    but not truthy: with the number 0 as target the checks block is skipped,
    so the matcher returns true, and invokes nothing, although the listed
    predicate returns false on that target.  The module resolves, the checks
    list and the target are present and the abilities block passes, yet
    returning true is not equivalent to every listed check returning true. *)
Lemma C3_counterexample :
  Rules.module rule_deny_zero = Some "m" /\
  denyPermissions !! "m" = Some denyModule /\
  Rules.checks rule_deny_zero = Some ["deny"] /\
  Rules.target rule_deny_zero = Some zero /\
  abilities_block denyModule rule_deny_zero = ret false /\
  (exists f : Check,
     PermissionModule.checks denyModule !! "deny" = Some f /\ f zero = Returns false) /\
  checkPermissions denyPermissions rule_deny_zero = ret true /\
  ~ (completion (checkPermissions denyPermissions rule_deny_zero) = Returns true <->
     Forall (check_passes denyModule zero) ["deny"]).
Proof.
  split; [reflexivity |]. split; [reflexivity |]. split; [reflexivity |].
  split; [reflexivity |]. split; [reflexivity |].
  split; [exists (fun _ => Returns false); split; reflexivity |].
  split; [reflexivity |].
  intros [Hpasses _]. specialize (Hpasses eq_refl).
  apply Forall_cons in Hpasses as [(f & Hf & Htrue) _].
  vm_compute in Hf. injection Hf as <-. discriminate Htrue.
Qed.

(** ** The abilities block *)

(** An ability is not granted exactly when it is mapped to false, or is
    missing from the module's abilities and no member of [Object.prototype]:
    absence is denial, except for the names every object inherits. *)
Lemma ability_not_granted (m : PermissionModule.t) (ability : string) :
  ability_granted m ability = false <->
  (PermissionModule.abilities m !! ability = None /\
   Object_prototype_has ability = false) \/
  PermissionModule.abilities m !! ability = Some false.
Proof.
  unfold ability_granted, Get_property.
  destruct (PermissionModule.abilities m !! ability) as [[] |]; simpl.
  - split; [done |]. by intros [[? _] |].
  - split; [by right | done].
  - destruct (Object_prototype_has ability).
    + split; [done |]. by intros [[_ ?] |].
    + split; [by left | done].
Qed.

(** When every listed ability is granted the block does not deny; the empty
    list is the trivial case. *)
Lemma abilities_block_all_granted (m : PermissionModule.t) (r : Rules.t)
  (names : list string) :
  Rules.abilities r = Some names ->
  Forall (fun ability => ability_granted m ability = true) names ->
  abilities_block m r = ret false.
Proof.
  intros Hnames Hall. rewrite abilities_block_run, Hnames. f_equal. clear Hnames.
  induction Hall as [| ability rest Hgranted _ IH]; simpl; [done |].
  rewrite Hgranted; simpl. exact IH.
Qed.

(** When no listed name is the empty string, one ability that is not
    granted makes the block deny. *)
Lemma abilities_block_denies (m : PermissionModule.t) (r : Rules.t)
  (names : list string) :
  Rules.abilities r = Some names -> "" ∉ names ->
  Exists (fun ability => ability_granted m ability = false) names ->
  abilities_block m r = ret true.
Proof.
  intros Hnames Hnonempty Hex. rewrite abilities_block_run, Hnames. f_equal.
  clear Hnames.
  induction Hex as [ability rest Hdenied | ability rest _ IH]; simpl.
  - rewrite Hdenied; simpl. destruct (String.eqb_spec ability "") as [-> | _]; [| done].
    exfalso. apply Hnonempty. left.
  - destruct (ability_granted m ability); simpl.
    + apply IH. intros Hin. apply Hnonempty. by right.
    + destruct (String.eqb_spec ability "") as [-> | _]; [| done].
      exfalso. apply Hnonempty. left.
Qed.

(** When no listed name is the empty string, each block is the search for
    some failing name, as the specification reads it. *)
Lemma abilities_block_is_some (m : PermissionModule.t) (r : Rules.t)
  (names : list string) :
  Rules.abilities r = Some names -> "" ∉ names ->
  abilities_block m r =
  some (fun ability => ret (negb (ability_granted m ability))) names.
Proof.
  intros Hnames Hnonempty. unfold abilities_block. rewrite Hnames.
  by apply find_then_test.
Qed.

Lemma checks_block_is_some `{Engine} (m : PermissionModule.t) (r : Rules.t)
  (names : list string) :
  Rules.checks r = Some names -> ToBoolean (read_target r) = true -> "" ∉ names ->
  checks_block m r = some (checks_callback m (read_target r)) names.
Proof.
  intros Hnames Htruthy Hnonempty.
  rewrite (checks_block_entered m r names Hnames Htruthy).
  by apply find_then_test.
Qed.

(** The matcher denies a resolved rule that lists, among names none of
    which is empty, an ability that is missing or false. *)
Lemma checkPermissions_ability_denied `{Engine} (p : Permissions) (r : Rules.t) (name : string)
  (m : PermissionModule.t) (names : list string) :
  Rules.module r = Some name -> name <> "undefined" -> p !! name = Some m ->
  Rules.abilities r = Some names -> "" ∉ names ->
  Exists (fun ability => ability_granted m ability = false) names ->
  checkPermissions p r = ret false.
Proof.
  intros Hmod Hname Hp Hnames Hnonempty Hex.
  rewrite (checkPermissions_resolved p r name m Hmod Hname Hp).
  by rewrite (abilities_block_denies m r names Hnames Hnonempty Hex).
Qed.

(** C2, on the code.  The rule [{ module: 'moduleA', abilities: ['', 'write'] }]
    against the permissions of the test suite: the ability '' is missing from
    moduleA and 'write' is mapped to false, and the matcher returns true.
    The search yields the name '', which is not truthy, so [return false] is
    not taken. *)
Theorem C2_empty_ability_name_is_not_denied :
  PermissionModule.abilities moduleA !! "" = None /\
  PermissionModule.abilities moduleA !! "write" = Some false /\
  checkPermissions userPermissions (Rules.Build (Some "moduleA") (Some ["write"]) None None)
    = ret false /\
  checkPermissions userPermissions rule_empty_then_write = ret true.
Proof.
  repeat split.
Qed.

(** ** The aggregator *)

(** No test rule: the aggregator returns true. *)
Lemma canAllow_empty `{Engine} (p : Permissions) : canAllow p [] = ret true.
Proof. reflexivity. Qed.

(** The negated search for a failing label is the conjunction over the
    labels, when the search cannot yield the empty string. *)
Lemma negated_search_is_conjunction `{Engine} (p : Permissions) (t : TestRules)
  (labels : list string) :
  "" ∉ labels ->
  (let* found := find (fun key =>
                         let* ok := checkPermissions p (effective_rule t key) in
                         ret (negb ok))
                      labels in
   ret (negb (ToBoolean (found_value found))))
  = allAllowed_spec p t labels.
Proof.
  induction labels as [| key rest IH]; intros Hnonempty; simpl.
  - by rewrite bind_ret_l.
  - rewrite !bind_assoc. apply bind_ext. intros ok _.
    rewrite !bind_ret_l. destruct ok; simpl.
    + apply IH. intros Hin. apply Hnonempty. by right.
    + rewrite bind_ret_l; simpl.
      destruct (String.eqb_spec key "") as [-> | _]; [| done].
      exfalso. apply Hnonempty. left.
Qed.

(** When no label is the empty string, the aggregator is the conjunction of
    the matcher's verdicts on the effective rules. *)
Lemma canAllow_is_conjunction `{Engine} (p : Permissions) (t : TestRules) :
  "" ∉ Object_keys t ->
  canAllow p t = allAllowed_spec p t (Object_keys t).
Proof.
  intros Hnonempty. unfold canAllow.
  by rewrite <- (negated_search_is_conjunction p t (Object_keys t) Hnonempty).
Qed.

(** The effective rule carries the label as its module, whatever module the
    rule under that label carried. *)
Lemma effective_rule_module (t : TestRules) (key : string) :
  Rules.module (effective_rule t key) = Some key.
Proof. reflexivity. Qed.

(** C1, on the code.  The test rules [{ '': {}, moduleA: { abilities: ['write'] } }]
    against the permissions of the test suite: the matcher denies the
    effective rule of either label, so the conjunction is false, and the
    aggregator returns true.  The search yields the label '', which is not
    truthy, and [!] turns it into true. *)
Theorem C1_empty_label_hides_denials :
  Object_keys test_empty_label = [""; "moduleA"] /\
  checkPermissions userPermissions (effective_rule test_empty_label "") = ret false /\
  checkPermissions userPermissions (effective_rule test_empty_label "moduleA") = ret false /\
  allAllowed_spec userPermissions test_empty_label (Object_keys test_empty_label) = ret false /\
  canAllow userPermissions test_empty_label = ret true.
Proof.
  repeat split.
Qed.

(** ** Objects by reference: what evaluation does to the store *)

Lemma read_only_pure {A : Type} (r : Run A) : Store.read_only (Store.pure r).
Proof. by intros h. Qed.

Lemma read_only_load (l : Store.loc) : Store.read_only (Store.load l).
Proof. by intros h. Qed.

Lemma read_only_seq {A B : Type} (m : Store.Eff A) (k : A -> Store.Eff B) :
  Store.read_only m -> (forall a, Store.read_only (k a)) ->
  Store.read_only (Store.seq m k).
Proof.
  intros Hm Hk h. unfold Store.seq. specialize (Hm h).
  destruct (m h) as [r h1]; simpl in Hm; subst h1.
  destruct (completion r) as [a | e]; [| done].
  specialize (Hk a h). by destruct (k a h).
Qed.

Lemma read_only_find {A : Type} (callbackFn : A -> Store.Eff bool) (l : list A) :
  (forall x, Store.read_only (callbackFn x)) ->
  Store.read_only (Store.find callbackFn l).
Proof.
  intros Hcb. induction l as [| x rest IH]; simpl.
  - apply read_only_pure.
  - apply read_only_seq; [apply Hcb |]. intros []; [apply read_only_pure | apply IH].
Qed.

Lemma read_only_get_field {A : Type} (rules : Store.loc) (field : Rules.t -> option A) :
  Store.read_only (Store.get_field rules field).
Proof.
  unfold Store.get_field. apply read_only_seq; [apply read_only_load |].
  intros o. repeat case_read; apply read_only_pure.
Qed.

Lemma read_only_get_module (permissions : Store.loc) (name : string) :
  Store.read_only (Store.get_module permissions name).
Proof.
  unfold Store.get_module. apply read_only_seq; [apply read_only_load |].
  intros o. repeat case_read; apply read_only_pure.
Qed.

Lemma read_only_keys (test : Store.loc) : Store.read_only (Store.keys test).
Proof.
  unfold Store.keys. apply read_only_seq; [apply read_only_load |].
  intros o. repeat case_read; apply read_only_pure.
Qed.

Lemma read_only_get_rules (test : Store.loc) (key : string) :
  Store.read_only (Store.get_rules test key).
Proof.
  unfold Store.get_rules. apply read_only_seq; [apply read_only_load |].
  intros o. repeat case_read; apply read_only_pure.
Qed.

(** The matcher reads the store and leaves it as it is. *)
Lemma read_only_checkPermissions `{Engine} (permissions rules : Store.loc) :
  Store.read_only (Store.checkPermissions permissions rules).
Proof.
  unfold Store.checkPermissions.
  repeat first
    [ apply read_only_get_field
    | apply read_only_get_module
    | apply read_only_pure
    | apply read_only_find; intros ?
    | apply read_only_seq; [| intros ?]
    | case_read ].
Qed.

Lemma preserving_read_only {A : Type} (m : Store.Eff A) :
  Store.read_only m -> Store.preserving m.
Proof. intros Hm h l o Hl. by rewrite Hm. Qed.

Lemma preserving_alloc (o : Store.Object) : Store.preserving (Store.alloc o).
Proof.
  intros h l o' Hl. unfold Store.alloc; simpl.
  rewrite lookup_insert_ne; [done |]. intros <-.
  assert (Hfresh : fresh (dom h) ∉ dom h) by apply is_fresh.
  apply Hfresh, elem_of_dom. by exists o'.
Qed.

Lemma preserving_seq {A B : Type} (m : Store.Eff A) (k : A -> Store.Eff B) :
  Store.preserving m -> (forall a, Store.preserving (k a)) ->
  Store.preserving (Store.seq m k).
Proof.
  intros Hm Hk h l o Hl. unfold Store.seq. specialize (Hm h l o Hl).
  destruct (m h) as [r h1]; simpl in Hm.
  destruct (completion r) as [a | e]; [| done].
  specialize (Hk a h1 l o Hm). by destruct (k a h1).
Qed.

Lemma preserving_find {A : Type} (callbackFn : A -> Store.Eff bool) (l : list A) :
  (forall x, Store.preserving (callbackFn x)) ->
  Store.preserving (Store.find callbackFn l).
Proof.
  intros Hcb. induction l as [| x rest IH]; simpl.
  - apply preserving_read_only, read_only_pure.
  - apply preserving_seq; [apply Hcb |].
    intros []; [apply preserving_read_only, read_only_pure | apply IH].
Qed.

Lemma preserving_spread_module (src : option Store.loc) (key : string) :
  Store.preserving (Store.spread_module src key).
Proof.
  unfold Store.spread_module. apply preserving_seq.
  - destruct src; apply preserving_read_only; [apply read_only_load | apply read_only_pure].
  - intros [[] |]; apply preserving_alloc.
Qed.

(** The aggregator adds the objects of its object literals and keeps every
    object the store held. *)
Lemma preserving_canAllow `{Engine} (permissions test : Store.loc) :
  Store.preserving (Store.canAllow permissions test).
Proof.
  unfold Store.canAllow.
  apply preserving_seq; [apply preserving_read_only, read_only_keys |]. intros labels.
  apply preserving_seq; [| intros ?; apply preserving_read_only, read_only_pure].
  apply preserving_find. intros key.
  apply preserving_seq; [apply preserving_read_only, read_only_get_rules |]. intros src.
  apply preserving_seq; [apply preserving_spread_module |]. intros effective.
  apply preserving_seq; [apply preserving_read_only, read_only_checkPermissions |].
  intros ok. apply preserving_read_only, read_only_pure.
Qed.

(** C8. Evaluation mutates nothing.  The matcher leaves the store exactly
    as it found it.  The aggregator leaves every object that was in the
    store (the permissions with their modules, the test rules and each of
    their rules among them) as it was; what it adds are the objects of its
    own literals [{ ...test[key], module: key }], at locations that were
    not in use. *)
Theorem C8_evaluation_mutates_nothing `{Engine} :
  (forall (permissions rules : Store.loc) (h : gmap Store.loc Store.Object),
     snd (Store.checkPermissions permissions rules h) = h) /\
  (forall (permissions test : Store.loc) (h : gmap Store.loc Store.Object)
          (l : Store.loc) (o : Store.Object),
     h !! l = Some o -> snd (Store.canAllow permissions test h) !! l = Some o).
Proof.
  split.
  - intros permissions rules. apply read_only_checkPermissions.
  - intros permissions test. apply preserving_canAllow.
Qed.

(** ** Objects by reference: the runs are those on the values *)

Lemma seq_ret_run {A B : Type} (m : Store.Eff A) (k : A -> Store.Eff B)
  (h : gmap Store.loc Store.Object) (a : A) :
  m h = (ret a, h) -> Store.seq m k h = k a h.
Proof.
  intros Hm. unfold Store.seq. rewrite Hm; simpl. by destruct (k a h) as [[] ?].
Qed.

Lemma seq_run {A B : Type} (m : Store.Eff A) (k : A -> Store.Eff B)
  (h : gmap Store.loc Store.Object) (r : Run A) (r' : A -> Run B) :
  m h = (r, h) ->
  (forall a, completion r = Returns a -> k a h = (r' a, h)) ->
  Store.seq m k h = (let* x := r in r' x, h).
Proof.
  intros Hm Hk. unfold Store.seq, bind. rewrite Hm.
  destruct (completion r) as [a | e]; [| done]. by rewrite (Hk a).
Qed.

Lemma find_run {A : Type} (callbackFn : A -> Store.Eff bool) (cb : A -> Run bool)
  (h : gmap Store.loc Store.Object) (l : list A) :
  (forall x, callbackFn x h = (cb x, h)) ->
  Store.find callbackFn l h = (find cb l, h).
Proof.
  intros Hcb. induction l as [| x rest IH]; simpl; [done |].
  apply seq_run; [apply Hcb |]. by intros [] _.
Qed.

Lemma get_field_run {A : Type} (h : gmap Store.loc Store.Object) (rules : Store.loc)
  (r : Rules.t) (field : Rules.t -> option A) :
  h !! rules = Some (Store.ORules r) ->
  Store.get_field rules field h = (ret (field r), h).
Proof.
  intros Hr. unfold Store.get_field, Store.seq, Store.load; simpl. by rewrite Hr.
Qed.

Lemma get_module_run (h : gmap Store.loc Store.Object) (permissions : Store.loc)
  (p : Permissions) (name : string) :
  h !! permissions = Some (Store.OPermissions p) ->
  Store.get_module permissions name h = (ret (Get_property p name), h).
Proof.
  intros Hp. unfold Store.get_module, Store.seq, Store.load; simpl. by rewrite Hp.
Qed.

Lemma Store_abilities_block_own (h : gmap Store.loc Store.Object) (rules : Store.loc)
  (r : Rules.t) (m : PermissionModule.t) :
  h !! rules = Some (Store.ORules r) ->
  Store.abilities_block (Own m) rules h = (abilities_block m r, h).
Proof.
  intros Hr. unfold Store.abilities_block, abilities_block.
  rewrite (seq_ret_run _ _ h _ (get_field_run h rules r Rules.abilities Hr)).
  destruct (Rules.abilities r) as [names |]; [| done].
  apply seq_run; [| done]. by apply find_run.
Qed.

Lemma Store_abilities_block_member (h : gmap Store.loc Store.Object) (rules : Store.loc)
  (r : Rules.t) :
  h !! rules = Some (Store.ORules r) ->
  Store.abilities_block Inherited rules h = (member_abilities_block r, h).
Proof.
  intros Hr. unfold Store.abilities_block, member_abilities_block.
  rewrite (seq_ret_run _ _ h _ (get_field_run h rules r Rules.abilities Hr)).
  destruct (Rules.abilities r) as [names |]; [| done].
  apply seq_run; [| done]. by apply find_run.
Qed.

Lemma Store_checks_block_own `{Engine} (h : gmap Store.loc Store.Object)
  (rules : Store.loc) (r : Rules.t) (m : PermissionModule.t) :
  h !! rules = Some (Store.ORules r) ->
  Store.checks_block (Own m) rules h = (checks_block m r, h).
Proof.
  intros Hr. unfold Store.checks_block, checks_block, read_target.
  rewrite (seq_ret_run _ _ h _ (get_field_run h rules r Rules.checks Hr)).
  rewrite (seq_ret_run _ _ h _ (get_field_run h rules r Rules.target Hr)).
  destruct (Rules.checks r) as [names |]; [| done].
  destruct (ToBoolean (default VUndefined (Rules.target r))); [| done].
  apply seq_run; [| done]. apply find_run. intros check.
  rewrite (seq_ret_run _ _ h _ (get_field_run h rules r Rules.target Hr)).
  by apply seq_run.
Qed.

Lemma Store_checks_block_member `{Engine} (h : gmap Store.loc Store.Object)
  (rules : Store.loc) (r : Rules.t) :
  h !! rules = Some (Store.ORules r) ->
  Store.checks_block Inherited rules h = (member_checks_block r, h).
Proof.
  intros Hr. unfold Store.checks_block, member_checks_block, read_target.
  rewrite (seq_ret_run _ _ h _ (get_field_run h rules r Rules.checks Hr)).
  rewrite (seq_ret_run _ _ h _ (get_field_run h rules r Rules.target Hr)).
  destruct (Rules.checks r) as [names |]; [| done].
  destruct (ToBoolean (default VUndefined (Rules.target r))); [| done].
  apply seq_run; [| done]. by apply find_run.
Qed.

(** On a store that holds the permissions and the rule, the matcher by
    reference makes the run of [checkPermissions] on the two values. *)
Lemma Store_checkPermissions_agrees `{Engine} (h : gmap Store.loc Store.Object)
  (permissions rules : Store.loc) (p : Permissions) (r : Rules.t) :
  h !! permissions = Some (Store.OPermissions p) ->
  h !! rules = Some (Store.ORules r) ->
  Store.checkPermissions permissions rules h = (checkPermissions p r, h).
Proof.
  intros Hp Hr. unfold Store.checkPermissions, checkPermissions.
  rewrite (seq_ret_run _ _ h _ (get_field_run h rules r Rules.module Hr)).
  destruct (Rules.module r) as [name |]; [| done].
  destruct (String.eqb name "undefined"); [done |].
  rewrite (seq_ret_run _ _ h _ (get_module_run h permissions p name Hp)).
  destruct (Get_property p name) as [m | |]; [| | done].
  - apply seq_run; [by apply Store_abilities_block_own |].
    intros [] _; [done |].
    apply seq_run; [by apply Store_checks_block_own |]. by intros [].
  - apply seq_run; [by apply Store_abilities_block_member |].
    intros [] _; [done |].
    apply seq_run; [by apply Store_checks_block_member |]. by intros [].
Qed.

Lemma resolve_keys (h : gmap Store.loc Store.Object)
  (props : list (string * Store.loc)) (t : TestRules) :
  Store.resolve h props t -> map fst props = Object_keys t.
Proof.
  induction 1 as [| [k l] [k' r] props t [Hk _] _ IH]; simpl in *; [done |].
  by rewrite Hk, IH.
Qed.

Lemma resolve_assoc (h : gmap Store.loc Store.Object)
  (props : list (string * Store.loc)) (t : TestRules) (key : string) :
  Store.resolve h props t ->
  match Store.assoc props key with
  | Some l => exists r, TestRules_get t key = Some r /\ h !! l = Some (Store.ORules r)
  | None => TestRules_get t key = None
  end.
Proof.
  induction 1 as [| [k l] [k' r] props t [Hk Hl] _ IH]; simpl in *; [done |].
  subst k'. destruct (String.eqb k key); [| done]. by exists r.
Qed.

(** The object literal [{ ...test[key], module: key }] becomes a new object
    holding the effective rule; the store keeps what it held. *)
Lemma spread_module_run (h0 h : gmap Store.loc Store.Object)
  (props : list (string * Store.loc)) (t : TestRules) (key : string) :
  Store.resolve h0 props t -> h0 ⊆ h ->
  Store.spread_module (Store.assoc props key) key h =
  (ret (fresh (dom h)), <[fresh (dom h) := Store.ORules (effective_rule t key)]> h).
Proof.
  intros Hres Hsub. unfold Store.spread_module, effective_rule.
  pose proof (resolve_assoc h0 props t key Hres) as Hkey.
  destruct (Store.assoc props key) as [l |].
  - destruct Hkey as (r & Hget & Hl). rewrite Hget.
    apply (lookup_weaken _ _ _ _ Hl) in Hsub.
    unfold Store.seq, Store.load; simpl. by rewrite Hsub.
  - by rewrite Hkey.
Qed.

Lemma insert_fresh_subseteq (h : gmap Store.loc Store.Object) (o : Store.Object) :
  h ⊆ <[fresh (dom h) := o]> h.
Proof.
  apply insert_subseteq, not_elem_of_dom, is_fresh.
Qed.

(** On a store that holds the permissions, the test rules and each of their
    rules, the aggregator by reference makes the run of [canAllow] on the
    values. *)
Lemma Store_canAllow_agrees `{Engine} (h : gmap Store.loc Store.Object)
  (permissions test : Store.loc) (p : Permissions)
  (props : list (string * Store.loc)) (t : TestRules) :
  h !! permissions = Some (Store.OPermissions p) ->
  h !! test = Some (Store.OTestRules props) ->
  Store.resolve h props t ->
  fst (Store.canAllow permissions test h) = canAllow p t.
Proof.
  intros Hp Ht Hres. unfold Store.canAllow, canAllow.
  assert (Hkeys : Store.keys test h = (ret (map fst props), h)).
  { unfold Store.keys, Store.seq, Store.load; simpl. by rewrite Ht. }
  rewrite (seq_ret_run _ _ h _ Hkeys), (resolve_keys h props t Hres).
  set (callbackFn := fun key : string =>
         Store.seq (Store.get_rules test key) (fun src =>
         Store.seq (Store.spread_module src key) (fun effective =>
         Store.seq (Store.checkPermissions permissions effective) (fun ok =>
         Store.pure (ret (negb ok)))))).
  set (cb := fun key : string =>
         let* ok := checkPermissions p (spread_with_module (TestRules_get t key) key) in
         ret (negb ok)).
  assert (Hcb : forall key h1, h ⊆ h1 ->
            exists h2, callbackFn key h1 = (cb key, h2) /\ h ⊆ h2).
  { intros key h1 Hsub. unfold callbackFn.
    assert (Hget : Store.get_rules test key h1 = (ret (Store.assoc props key), h1)).
    { unfold Store.get_rules, Store.seq, Store.load; simpl.
      by rewrite (lookup_weaken _ _ _ _ Ht Hsub). }
    rewrite (seq_ret_run _ _ h1 _ Hget).
    set (h2 := <[fresh (dom h1) := Store.ORules (effective_rule t key)]> h1).
    assert (Hsub2 : h1 ⊆ h2) by apply insert_fresh_subseteq.
    exists h2. split; [| by transitivity h1].
    unfold Store.seq at 1.
    rewrite (spread_module_run h h1 props t key Hres Hsub); simpl. fold h2.
    assert (Hrun : Store.checkPermissions permissions (fresh (dom h1)) h2
                   = (checkPermissions p (effective_rule t key), h2)).
    { apply Store_checkPermissions_agrees.
      - apply (lookup_weaken h). done. by transitivity h1.
      - apply lookup_insert_eq. }
    rewrite (seq_run _ _ h2 _ (fun ok => ret (negb ok)) Hrun) by done.
    unfold cb, effective_rule. by destruct (let* ok := _ in _). }
  assert (Hfind : forall labels h1, h ⊆ h1 ->
            exists h2, Store.find callbackFn labels h1 = (find cb labels, h2) /\ h ⊆ h2).
  { induction labels as [| key rest IH]; intros h1 Hsub; simpl.
    - by exists h1.
    - destruct (Hcb key h1 Hsub) as (h2 & Hrun & Hsub2).
      unfold Store.seq at 1. rewrite Hrun. unfold bind at 1.
      destruct (completion (cb key)) as [[] | e]; simpl.
      + exists h2. split; [| done]. by rewrite app_nil_r.
      + destruct (IH h2 Hsub2) as (h3 & Hrest & Hsub3). rewrite Hrest.
        by exists h3.
      + by exists h2. }
  destruct (Hfind (Object_keys t) h (reflexivity h)) as (h2 & Hrun & _).
  unfold Store.seq at 1. rewrite Hrun. unfold bind at 1.
  by destruct (completion (find cb (Object_keys t))).
Qed.

(** * Further properties of the two functions *)

(** ** Searches in general *)

Lemma completion_bind_returns {A B : Type} (m : Run A) (k : A -> Run B) (a : A) :
  completion m = Returns a ->
  completion (let* x := m in k x) = completion (k a).
Proof. intros Hm. unfold bind. by rewrite Hm. Qed.

Lemma completion_bind_throws {A B : Type} (m : Run A) (k : A -> Run B) (e : Exception) :
  completion m = Throws e ->
  completion (let* x := m in k x) = Throws e.
Proof. intros Hm. unfold bind. by rewrite Hm. Qed.

Lemma find_ext {A : Type} (cb cb' : A -> Run bool) (l : list A) :
  (forall x, x ∈ l -> cb x = cb' x) -> find cb l = find cb' l.
Proof.
  induction l as [| x rest IH]; intros Hcb; simpl; [done |].
  rewrite (Hcb x) by left. apply bind_ext. intros [] _; [done |].
  apply IH. intros y Hy. apply Hcb. by right.
Qed.

(** The search passes over a prefix on which the callback returns false. *)
Lemma find_skip {A : Type} (cb : A -> Run bool) (pre rest : list A) :
  Forall (fun x => completion (cb x) = Returns false) pre ->
  completion (find cb (pre ++ rest)) = completion (find cb rest).
Proof.
  induction 1 as [| x pre Hx _ IH]; simpl; [done |].
  by rewrite (completion_bind_returns _ _ false Hx).
Qed.

(** The callback of the aggregator's search, by the verdict of the matcher. *)
Lemma negated_verdict (m : Run bool) :
  completion (let* ok := m in ret (negb ok)) =
  match completion m with
  | Returns ok => Returns (negb ok)
  | Throws e => Throws e
  end.
Proof. unfold bind. by destruct (completion m). Qed.

(** ** The aggregator, label by label *)

Lemma allAllowed_spec_true `{Engine} (p : Permissions) (t : TestRules) (labels : list string) :
  completion (allAllowed_spec p t labels) = Returns true <->
  Forall (fun key => completion (checkPermissions p (effective_rule t key)) = Returns true)
         labels.
Proof.
  induction labels as [| key rest IH]; simpl.
  - split; [constructor | done].
  - unfold bind at 1.
    destruct (completion (checkPermissions p (effective_rule t key))) as [[] | e] eqn:Hkey;
      simpl.
    + rewrite IH. split.
      * intros Hrest. by constructor.
      * intros Hall. by apply Forall_cons in Hall as [_ Hrest].
    + split; [done |]. intros Hall. apply Forall_cons in Hall as [Hhead _]. congruence.
    + split; [done |]. intros Hall. apply Forall_cons in Hall as [Hhead _]. congruence.
Qed.

(** X1. When no label is the empty string, the aggregator returns true
    exactly when the matcher returns true on the effective rule of every
    label. *)
Theorem X1_canAllow_true_iff_every_rule_passes `{Engine} (p : Permissions) (t : TestRules) :
  "" ∉ Object_keys t ->
  (completion (canAllow p t) = Returns true <->
   Forall (fun key => completion (checkPermissions p (effective_rule t key)) = Returns true)
          (Object_keys t)).
Proof.
  intros Hnonempty. rewrite (canAllow_is_conjunction p t Hnonempty).
  apply allAllowed_spec_true.
Qed.

Lemma X1_witness :
  completion
    (canAllow userPermissions
       [("moduleA", Rules.Build None (Some ["read"]) None None);
        ("moduleB", Rules.Build (Some "moduleA") (Some ["write"]) None None)])
  = Returns true <->
  Forall (fun key =>
            completion
              (checkPermissions userPermissions
                 (effective_rule
                    [("moduleA", Rules.Build None (Some ["read"]) None None);
                     ("moduleB", Rules.Build (Some "moduleA") (Some ["write"]) None None)]
                    key)) = Returns true)
         ["moduleA"; "moduleB"].
Proof.
  apply (X1_canAllow_true_iff_every_rule_passes userPermissions
           [("moduleA", Rules.Build None (Some ["read"]) None None);
            ("moduleB", Rules.Build (Some "moduleA") (Some ["write"]) None None)]).
  intros Hin. apply list_elem_of_In in Hin. simpl in Hin.
  destruct Hin as [Heq | [Heq | []]]; discriminate Heq.
Defined.

(** X2. A denied rule under the empty label hides what follows: when the
    labels before the empty one pass and the effective rule of the empty
    label is denied, the aggregator returns true, whatever the rules under
    the later labels are. *)
Theorem X2_empty_label_masks_later_rules `{Engine} (p : Permissions) (t : TestRules)
  (pre post : list string) :
  Object_keys t = pre ++ "" :: post ->
  Forall (fun key => completion (checkPermissions p (effective_rule t key)) = Returns true)
         pre ->
  completion (checkPermissions p (effective_rule t "")) = Returns false ->
  completion (canAllow p t) = Returns true.
Proof.
  intros Hkeys Hpre Hempty. unfold canAllow. rewrite Hkeys.
  rewrite (completion_bind_returns _ _ (Some "")); [done |].
  rewrite find_skip.
  - simpl. rewrite (completion_bind_returns _ _ true); [done |].
    rewrite negated_verdict. fold (effective_rule t ""). by rewrite Hempty.
  - eapply Forall_impl; [exact Hpre |]. intros key Hkey; simpl.
    rewrite negated_verdict. fold (effective_rule t key). by rewrite Hkey.
Qed.

Lemma X2_witness :
  completion
    (canAllow userPermissions
       [("moduleA", Rules.Build None (Some ["read"]) None None);
        ("", empty_rules);
        ("moduleB", Rules.Build None (Some ["missing"]) None None)])
  = Returns true.
Proof.
  apply (X2_empty_label_masks_later_rules userPermissions
           [("moduleA", Rules.Build None (Some ["read"]) None None);
            ("", empty_rules);
            ("moduleB", Rules.Build None (Some ["missing"]) None None)]
           ["moduleA"] ["moduleB"]).
  - reflexivity.
  - constructor; [reflexivity | constructor].
  - reflexivity.
Defined.

(** X3. The aggregator does not catch: when the labels before some label
    pass and the matcher throws on the effective rule of that label, the
    aggregator throws the same exception. *)
Theorem X3_canAllow_propagates_throw `{Engine} (p : Permissions) (t : TestRules)
  (pre post : list string) (key : string) (e : Exception) :
  Object_keys t = pre ++ key :: post ->
  Forall (fun k => completion (checkPermissions p (effective_rule t k)) = Returns true)
         pre ->
  completion (checkPermissions p (effective_rule t key)) = Throws e ->
  completion (canAllow p t) = Throws e.
Proof.
  intros Hkeys Hpre Hkey. unfold canAllow. rewrite Hkeys.
  apply completion_bind_throws. rewrite find_skip.
  - simpl. apply completion_bind_throws.
    rewrite negated_verdict. fold (effective_rule t key). by rewrite Hkey.
  - eapply Forall_impl; [exact Hpre |]. intros k Hk; simpl.
    rewrite negated_verdict. fold (effective_rule t k). by rewrite Hk.
Qed.

Lemma X3_witness :
  completion
    (canAllow userPermissions
       [("moduleA", Rules.Build None (Some ["read"]) None None);
        ("moduleB", Rules.Build None None (Some ["isAdmin"]) (Some (VObject [])))])
  = Throws not_a_function.
Proof.
  apply (X3_canAllow_propagates_throw userPermissions
           [("moduleA", Rules.Build None (Some ["read"]) None None);
            ("moduleB", Rules.Build None None (Some ["isAdmin"]) (Some (VObject [])))]
           ["moduleA"] [] "moduleB" not_a_function).
  - reflexivity.
  - constructor; [reflexivity | constructor].
  - reflexivity.
Defined.

(** ** What the aggregator does not depend on *)

Lemma canAllow_ext `{Engine} (p p' : Permissions) (t t' : TestRules) :
  Object_keys t = Object_keys t' ->
  (forall key, key ∈ Object_keys t ->
     checkPermissions p (effective_rule t key) = checkPermissions p' (effective_rule t' key)) ->
  canAllow p t = canAllow p' t'.
Proof.
  intros Hkeys Hrules. unfold canAllow. rewrite <- Hkeys. f_equal.
  apply find_ext. intros key Hkey. fold (effective_rule t key) (effective_rule t' key).
  by rewrite (Hrules key Hkey).
Qed.

Lemma effective_rule_modulo_module (t t' : TestRules) (key : string) :
  Forall2 (fun kr kr' =>
             fst kr = fst kr' /\
             Rules.abilities (snd kr) = Rules.abilities (snd kr') /\
             Rules.checks (snd kr) = Rules.checks (snd kr') /\
             Rules.target (snd kr) = Rules.target (snd kr')) t t' ->
  effective_rule t key = effective_rule t' key.
Proof.
  unfold effective_rule.
  induction 1 as [| [k r] [k' r'] t t' (Hk & Ha & Hc & Ht) _ IH]; simpl in *; [done |].
  subst k'. destruct (String.eqb k key); [| exact IH].
  unfold spread_with_module; simpl. by rewrite Ha, Hc, Ht.
Qed.

(** X4. The label overrides the module: two test rules with the same labels
    in the same order, whose rules agree on abilities, checks and target, get
    the same run of the aggregator, whatever module fields their rules
    carry. *)
Theorem X4_canAllow_ignores_module_fields `{Engine} (p : Permissions) (t t' : TestRules) :
  Forall2 (fun kr kr' =>
             fst kr = fst kr' /\
             Rules.abilities (snd kr) = Rules.abilities (snd kr') /\
             Rules.checks (snd kr) = Rules.checks (snd kr') /\
             Rules.target (snd kr) = Rules.target (snd kr')) t t' ->
  canAllow p t = canAllow p t'.
Proof.
  intros Hsame. apply canAllow_ext.
  - unfold Object_keys. induction Hsame as [| kr kr' t t' (Hk & _) _ IH]; simpl; [done |].
    by rewrite Hk, IH.
  - intros key _. by rewrite (effective_rule_modulo_module t t' key Hsame).
Qed.

Lemma X4_witness :
  canAllow userPermissions
    [("moduleA", Rules.Build (Some "nonExistentModule") (Some ["read"]) None None)]
  = canAllow userPermissions
      [("moduleA", Rules.Build None (Some ["read"]) None None)].
Proof.
  apply (X4_canAllow_ignores_module_fields userPermissions
           [("moduleA", Rules.Build (Some "nonExistentModule") (Some ["read"]) None None)]
           [("moduleA", Rules.Build None (Some ["read"]) None None)]).
  constructor; [| constructor]. repeat split.
Defined.

(** The matcher reads one entry of the permissions: the one its rule
    names. *)
Lemma checkPermissions_reads_named_module `{Engine} (p p' : Permissions) (r : Rules.t) :
  (forall name, Rules.module r = Some name -> p !! name = p' !! name) ->
  checkPermissions p r = checkPermissions p' r.
Proof.
  intros Hsame. unfold checkPermissions, Get_property.
  destruct (Rules.module r) as [name |]; [| done].
  by rewrite (Hsame name eq_refl).
Qed.

(** X5. The aggregator reads the entries of the permissions under its
    labels and no other: permissions that agree on every label of the test
    rules give the same run. *)
Theorem X5_canAllow_reads_labelled_modules `{Engine} (p p' : Permissions) (t : TestRules) :
  (forall key, key ∈ Object_keys t -> p !! key = p' !! key) ->
  canAllow p t = canAllow p' t.
Proof.
  intros Hsame. apply canAllow_ext; [done |]. intros key Hkey.
  apply checkPermissions_reads_named_module. intros name [= <-]. by apply Hsame.
Qed.

Lemma X5_witness :
  canAllow userPermissions [("moduleA", Rules.Build None (Some ["read"]) None None)]
  = canAllow (delete "moduleB" userPermissions)
      [("moduleA", Rules.Build None (Some ["read"]) None None)].
Proof.
  apply (X5_canAllow_reads_labelled_modules userPermissions
           (delete "moduleB" userPermissions)
           [("moduleA", Rules.Build None (Some ["read"]) None None)]).
  intros key Hin. apply list_elem_of_In in Hin. simpl in Hin.
  destruct Hin as [<- | []]. reflexivity.
Defined.

Lemma TestRules_get_filter (t : TestRules) (keep : string -> bool) (key : string) :
  keep key = true ->
  TestRules_get (List.filter (fun kr => keep (fst kr)) t) key = TestRules_get t key.
Proof.
  intros Hkeep. induction t as [| [k r] rest IH]; simpl; [done |].
  destruct (keep k) eqn:Hk; simpl.
  - by rewrite IH.
  - destruct (String.eqb_spec k key) as [-> | _]; [congruence | exact IH].
Qed.

Lemma canAllow_filter_undefined `{Engine} (p : Permissions) (t : TestRules)
  (keep : string -> bool) :
  (forall key, keep key = false -> key = "undefined") ->
  canAllow p t = canAllow p (List.filter (fun kr => keep (fst kr)) t).
Proof.
  intros Hkeep. unfold canAllow. f_equal.
  set (t' := List.filter (fun kr : string * Rules.t => keep (fst kr)) t).
  set (cb := fun key : string =>
         let* ok := checkPermissions p (spread_with_module (TestRules_get t key) key) in
         ret (negb ok)).
  set (cb' := fun key : string =>
         let* ok := checkPermissions p (spread_with_module (TestRules_get t' key) key) in
         ret (negb ok)).
  assert (Hkept : forall key, keep key = true -> cb key = cb' key).
  { intros key Hkey. unfold cb, cb', t'. by rewrite (TestRules_get_filter t keep key Hkey). }
  assert (Hdropped : forall key, keep key = false -> cb key = ret false).
  { intros key Hkey. unfold cb.
    rewrite checkPermissions_bypass; [rewrite bind_ret_l; reflexivity |].
    right. simpl. f_equal. by apply Hkeep. }
  unfold t', Object_keys. clearbody cb cb'. clear t'.
  induction t as [| [k r] rest IH]; simpl; [done |].
  destruct (keep k) eqn:Hk; simpl.
  - rewrite (Hkept k Hk). apply bind_ext. by intros [] _.
  - by rewrite (Hdropped k Hk), bind_ret_l.
Qed.

(** X6. A test rule under the label "undefined" has no effect: removing
    every such rule leaves the run of the aggregator as it was. *)
Theorem X6_undefined_label_is_vacuous `{Engine} (p : Permissions) (t : TestRules) :
  canAllow p t =
  canAllow p (List.filter (fun kr => negb (String.eqb (fst kr) "undefined")) t).
Proof.
  apply (canAllow_filter_undefined p t (fun key => negb (String.eqb key "undefined"))).
  intros key Hkey. apply negb_false_iff in Hkey. by apply String.eqb_eq.
Qed.

(** ** The matcher without its checks block *)

(** When no listed name is the empty string, the test of the name found is
    the test that some listed ability is not granted. *)
Lemma ungranted_found (m : PermissionModule.t) (names : list string) :
  "" ∉ names ->
  ToBoolean (found_value
               (List.find (fun ability => negb (ability_granted m ability)) names))
  = negb (forallb (ability_granted m) names).
Proof.
  induction names as [| ability rest IH]; intros Hnonempty; simpl; [done |].
  destruct (ability_granted m ability); simpl.
  - apply IH. intros Hin. apply Hnonempty. by right.
  - destruct (String.eqb_spec ability "") as [-> | _]; [| done].
    exfalso. apply Hnonempty. left.
Qed.

(** X7. On a rule whose module is an own entry of the permissions, whose
    abilities list names no empty string, and whose checks block is skipped
    (no checks list, or a target that is not truthy), the verdict is the
    conjunction over the listed abilities of what [permModule.abilities[name]]
    reads: the own flag when there is one; otherwise true for a member of
    [Object.prototype] ([toString], [constructor], ...) and false for any
    other name.  Nothing is called. *)
Theorem X7_verdict_is_conjunction_of_grants `{Engine} (p : Permissions) (r : Rules.t)
  (name : string) (m : PermissionModule.t) (names : list string) :
  Rules.module r = Some name -> name <> "undefined" -> p !! name = Some m ->
  Rules.abilities r = Some names -> "" ∉ names ->
  Rules.checks r = None \/ ToBoolean (read_target r) = false ->
  checkPermissions p r = ret (forallb (ability_granted m) names).
Proof.
  intros Hmod Hname Hp Hnames Hnonempty Hskipped.
  rewrite (checkPermissions_resolved p r name m Hmod Hname Hp).
  rewrite abilities_block_run, Hnames, (ungranted_found m names Hnonempty), bind_ret_l.
  destruct (forallb (ability_granted m) names); simpl; [| done].
  by rewrite (checks_block_skipped m r Hskipped), bind_ret_l.
Qed.

Lemma X7_witness :
  checkPermissions userPermissions
    (Rules.Build (Some "moduleA") (Some ["read"; "toString"; "write"]) (Some ["isAdmin"])
       (Some zero))
  = ret (forallb (ability_granted moduleA) ["read"; "toString"; "write"]).
Proof.
  apply (X7_verdict_is_conjunction_of_grants userPermissions
           (Rules.Build (Some "moduleA") (Some ["read"; "toString"; "write"])
              (Some ["isAdmin"]) (Some zero))
           "moduleA" moduleA ["read"; "toString"; "write"]).
  - reflexivity.
  - discriminate.
  - reflexivity.
  - reflexivity.
  - intros Hin. apply list_elem_of_In in Hin. simpl in Hin.
    destruct Hin as [Heq | [Heq | [Heq | []]]]; discriminate Heq.
  - right. reflexivity.
Defined.

Lemma find_after_granted (m : PermissionModule.t) (pre rest : list string) :
  Forall (fun ability => ability_granted m ability = true) pre ->
  List.find (fun ability => negb (ability_granted m ability)) (pre ++ rest)
  = List.find (fun ability => negb (ability_granted m ability)) rest.
Proof.
  induction 1 as [| ability pre Hgranted _ IH]; simpl; [done |].
  by rewrite Hgranted.
Qed.

(** X8. An empty ability name that is not granted, listed before every
    other ability that is not granted, makes the abilities list as good as
    absent: the matcher does what it does on the same rule without the
    abilities field, whatever names follow the empty one. *)
Theorem X8_empty_ability_name_masks_the_list `{Engine} (p : Permissions) (r : Rules.t)
  (name : string) (m : PermissionModule.t) (pre post : list string) :
  Rules.module r = Some name -> name <> "undefined" -> p !! name = Some m ->
  Rules.abilities r = Some (pre ++ "" :: post) ->
  Forall (fun ability => ability_granted m ability = true) pre ->
  ability_granted m "" = false ->
  checkPermissions p r =
  checkPermissions p (Rules.Build (Rules.module r) None (Rules.checks r) (Rules.target r)).
Proof.
  intros Hmod Hname Hp Hnames Hpre Hempty.
  rewrite (checkPermissions_resolved p r name m Hmod Hname Hp).
  rewrite (checkPermissions_resolved p
             (Rules.Build (Rules.module r) None (Rules.checks r) (Rules.target r))
             name m Hmod Hname Hp).
  rewrite !abilities_block_run, Hnames; simpl.
  rewrite (find_after_granted m pre _ Hpre); simpl. by rewrite Hempty.
Qed.

Lemma X8_witness :
  checkPermissions userPermissions
    (Rules.Build (Some "moduleA") (Some ["read"; ""; "write"; "delete"]) None None)
  = checkPermissions userPermissions (Rules.Build (Some "moduleA") None None None).
Proof.
  apply (X8_empty_ability_name_masks_the_list userPermissions
           (Rules.Build (Some "moduleA") (Some ["read"; ""; "write"; "delete"]) None None)
           "moduleA" moduleA ["read"] ["write"; "delete"]).
  - reflexivity.
  - discriminate.
  - reflexivity.
  - reflexivity.
  - constructor; [reflexivity | constructor].
  - reflexivity.
Defined.

(** X9. A target that is not truthy (false, 0, NaN, the empty string, null)
    counts as no target: the matcher does what it does on the same rule
    with neither checks nor target, and invokes no predicate. *)
Theorem X9_falsy_target_skips_checks `{Engine} (p : Permissions) (module : option string)
  (abilities checks : option (list string)) (tgt : Value) :
  ToBoolean tgt = false ->
  checkPermissions p (Rules.Build module abilities checks (Some tgt)) =
    checkPermissions p (Rules.Build module abilities None None) /\
  calls (checkPermissions p (Rules.Build module abilities checks (Some tgt))) = [].
Proof.
  intros Hfalsy. unfold checkPermissions; simpl.
  destruct module as [name |]; [| done].
  destruct (String.eqb name "undefined"); [done |].
  destruct (Get_property p name) as [m | |]; [| | done].
  - rewrite !abilities_block_run; simpl. rewrite !bind_ret_l.
    rewrite (checks_block_skipped m (Rules.Build (Some name) abilities checks (Some tgt)))
      by (by right).
    unfold checks_block; simpl.
    match goal with |- context [if ?b then _ else _] => by destruct b end.
  - unfold member_abilities_block, member_checks_block, read_target; simpl.
    rewrite Hfalsy.
    destruct abilities as [[| ability rest] |], checks; done.
Qed.

Lemma X9_witness :
  checkPermissions denyPermissions
    (Rules.Build (Some "m") None (Some ["deny"; "missing"]) (Some (VString "")))
  = checkPermissions denyPermissions (Rules.Build (Some "m") None None None) /\
  calls (checkPermissions denyPermissions
           (Rules.Build (Some "m") None (Some ["deny"; "missing"]) (Some (VString ""))))
  = [].
Proof.
  apply (X9_falsy_target_skips_checks denyPermissions (Some "m") None
           (Some ["deny"; "missing"]) (VString "")).
  reflexivity.
Defined.

(** ** What the matcher invokes and what it throws *)

Lemma calls_bind {A B : Type} (m : Run A) (k : A -> Run B) :
  calls (let* x := m in k x) =
  calls m ++ match completion m with
             | Returns a => calls (k a)
             | Throws _ => []
             end.
Proof.
  unfold bind. destruct (completion m); simpl; [done |]. by rewrite app_nil_r.
Qed.

(** A search whose callback throws on every element. *)
Lemma find_throwing {A : Type} (e : Exception) (l : list A) :
  find (fun _ : A => throw e) l = match l with [] => ret None | _ => throw e end.
Proof. by destruct l. Qed.


(** When the module name is a member of [Object.prototype], the two blocks
    call nothing. *)
Lemma member_blocks_call_nothing (r : Rules.t) :
  calls (member_abilities_block r) = [] /\ calls (member_checks_block r) = [].
Proof.
  unfold member_abilities_block, member_checks_block. split.
  - destruct (Rules.abilities r) as [[| ability rest] |]; done.
  - destruct (Rules.checks r) as [[| check rest] |]; [| | done];
      by destruct (ToBoolean (read_target r)).
Qed.

(** The search through a checks list calls the names of an initial segment
    of the list, each on the target. *)
Lemma find_checks_calls `{Engine} (m : PermissionModule.t) (tgt : Value)
  (names : list string) :
  exists n, calls (find (checks_callback m tgt) names) = invocations (take n names) tgt.
Proof.
  induction names as [| c rest (n & IH)]; simpl; [by exists 0 |].
  rewrite calls_bind.
  destruct (checks_callback_calls m tgt c) as [Hcalls Hfalse].
  destruct (completion (checks_callback m tgt c)) as [[] | e] eqn:Hc; simpl.
  - destruct Hcalls as [-> | ->]; [by exists 0 | by exists 1].
  - rewrite (Hfalse eq_refl); simpl. exists (S n). by rewrite IH.
  - destruct Hcalls as [-> | ->]; [by exists 0 | by exists 1].
Qed.

(** X10. Whatever the permissions and the rule, the calls the matcher makes
    are of the names of an initial segment of the rule's checks list, in the
    order of the list, each once and each on the rule's target: it calls
    nothing else and passes no other argument. *)
Theorem X10_invocations_follow_the_checks_list `{Engine} (p : Permissions) (r : Rules.t) :
  exists n,
    calls (checkPermissions p r) =
    invocations (take n (default [] (Rules.checks r))) (read_target r).
Proof.
  unfold checkPermissions.
  destruct (Rules.module r) as [name |]; [| by exists 0].
  destruct (String.eqb name "undefined"); [by exists 0 |].
  destruct (Get_property p name) as [m | |]; [| | by exists 0].
  - rewrite abilities_block_run, bind_ret_l.
    match goal with |- context [if ?b then _ else _] => destruct b end; [by exists 0 |].
    rewrite calls_bind.
    assert (Hblock : exists n, calls (checks_block m r) =
              invocations (take n (default [] (Rules.checks r))) (read_target r)).
    { unfold checks_block. destruct (Rules.checks r) as [names |]; simpl; [| by exists 0].
      destruct (ToBoolean (read_target r)); [| by exists 0].
      destruct (find_checks_calls m (read_target r) names) as (n & Hn).
      exists n. rewrite calls_bind. fold (checks_callback m (read_target r)).
      rewrite Hn. destruct (completion _); simpl; by rewrite app_nil_r. }
    destruct Hblock as (n & Hn). exists n. rewrite Hn.
    destruct (completion (checks_block m r)) as [[] | e]; simpl; by rewrite app_nil_r.
  - exists 0. destruct (member_blocks_call_nothing r) as [Habilities Hchecks].
    rewrite calls_bind, Habilities; simpl.
    destruct (completion (member_abilities_block r)) as [[] | e]; [done | | done].
    rewrite calls_bind, Hchecks; simpl.
    by destruct (completion (member_checks_block r)) as [[] | e].
Qed.



(** ** Order and composition *)

Lemma forallb_Permutation {A : Type} (f : A -> bool) (l l' : list A) :
  l ≡ₚ l' -> forallb f l = forallb f l'.
Proof.
  induction 1 as [| x l l' _ IH | x y l | l l' l'' _ IH _ IH']; simpl.
  - done.
  - by rewrite IH.
  - by destruct (f x), (f y).
  - by rewrite IH.
Qed.

(** X12. The order of the listed abilities does not matter when none of
    them is the empty string: a rule and the same rule with its abilities
    list permuted get the same run of the matcher. *)
Theorem X12_abilities_order_is_irrelevant `{Engine} (p : Permissions) (module : option string)
  (names names' : list string) (checks : option (list string)) (target : option Value) :
  names ≡ₚ names' -> "" ∉ names ->
  checkPermissions p (Rules.Build module (Some names) checks target) =
  checkPermissions p (Rules.Build module (Some names') checks target).
Proof.
  intros Hperm Hnonempty.
  assert (Hnonempty' : "" ∉ names') by (by rewrite <- Hperm).
  unfold checkPermissions; simpl.
  destruct module as [name |]; [| done].
  destruct (String.eqb name "undefined"); [done |].
  destruct (Get_property p name) as [m | |]; [| | done].
  - rewrite !abilities_block_run; simpl.
    rewrite (ungranted_found m names Hnonempty), (ungranted_found m names' Hnonempty').
    by rewrite (forallb_Permutation (ability_granted m) names names' Hperm).
  - unfold member_abilities_block; simpl. rewrite !find_throwing.
    destruct names as [| ability rest], names' as [| ability' rest']; try done.
    + by apply Permutation_nil_cons in Hperm.
    + symmetry in Hperm. by apply Permutation_nil_cons in Hperm.
Qed.

Lemma X12_witness :
  checkPermissions userPermissions
    (Rules.Build (Some "moduleA") (Some ["read"; "write"]) None None) =
  checkPermissions userPermissions
    (Rules.Build (Some "moduleA") (Some ["write"; "read"]) None None).
Proof.
  apply (X12_abilities_order_is_irrelevant userPermissions (Some "moduleA")
           ["read"; "write"] ["write"; "read"] None None).
  - apply perm_swap.
  - intros Hin. apply list_elem_of_In in Hin. simpl in Hin.
    destruct Hin as [Heq | [Heq | []]]; discriminate Heq.
Defined.

Lemma allAllowed_spec_app `{Engine} (p : Permissions) (t : TestRules) (labels labels' : list string) :
  allAllowed_spec p t (labels ++ labels') =
  (let* ok := allAllowed_spec p t labels in
   if ok then allAllowed_spec p t labels' else ret false).
Proof.
  induction labels as [| key rest IH]; simpl.
  - by rewrite bind_ret_l.
  - rewrite bind_assoc. apply bind_ext. intros [] _; [exact IH |].
    by rewrite bind_ret_l.
Qed.

Lemma allAllowed_spec_ext `{Engine} (p : Permissions) (t t' : TestRules) (labels : list string) :
  (forall key, key ∈ labels -> TestRules_get t key = TestRules_get t' key) ->
  allAllowed_spec p t labels = allAllowed_spec p t' labels.
Proof.
  induction labels as [| key rest IH]; intros Hsame; simpl; [done |].
  unfold effective_rule at 1 2. rewrite (Hsame key) by left.
  apply bind_ext. intros [] _; [| done]. apply IH. intros k Hk. apply Hsame. by right.
Qed.

Lemma TestRules_get_app_l (t1 t2 : TestRules) (key : string) :
  key ∈ Object_keys t1 -> TestRules_get (t1 ++ t2) key = TestRules_get t1 key.
Proof.
  unfold Object_keys.
  induction t1 as [| [k r] rest IH]; simpl; intros Hin; [by apply not_elem_of_nil in Hin |].
  destruct (String.eqb_spec k key) as [-> | Hne]; [done |].
  apply IH. apply elem_of_cons in Hin as [-> | Hin]; [done | exact Hin].
Qed.

Lemma TestRules_get_app_r (t1 t2 : TestRules) (key : string) :
  key ∉ Object_keys t1 -> TestRules_get (t1 ++ t2) key = TestRules_get t2 key.
Proof.
  unfold Object_keys.
  induction t1 as [| [k r] rest IH]; simpl; intros Hnotin; [done |].
  destruct (String.eqb_spec k key) as [-> | Hne].
  - exfalso. apply Hnotin. left.
  - apply IH. intros Hin. apply Hnotin. by right.
Qed.

(** X13. Test rules put one after the other, with no label in common and
    no empty label, are allowed exactly when the first are allowed and then
    the second: the aggregator on the whole is the aggregator on the first
    part followed, if that returns true, by the aggregator on the second. *)
Theorem X13_canAllow_of_disjoint_parts `{Engine} (p : Permissions) (t1 t2 : TestRules) :
  (forall key, key ∈ Object_keys t1 -> key ∉ Object_keys t2) ->
  "" ∉ Object_keys (t1 ++ t2) ->
  canAllow p (t1 ++ t2) =
  (let* ok := canAllow p t1 in if ok then canAllow p t2 else ret false).
Proof.
  intros Hdisjoint Hnonempty.
  assert (Hkeys : Object_keys (t1 ++ t2) = Object_keys t1 ++ Object_keys t2)
    by apply map_app.
  rewrite Hkeys in Hnonempty.
  rewrite (canAllow_is_conjunction p (t1 ++ t2)) by (by rewrite Hkeys).
  rewrite (canAllow_is_conjunction p t1)
    by (intros Hin; apply Hnonempty, elem_of_app; by left).
  rewrite (canAllow_is_conjunction p t2)
    by (intros Hin; apply Hnonempty, elem_of_app; by right).
  rewrite Hkeys, allAllowed_spec_app.
  rewrite (allAllowed_spec_ext p (t1 ++ t2) t1 (Object_keys t1))
    by (intros key Hkey; by apply TestRules_get_app_l).
  rewrite (allAllowed_spec_ext p (t1 ++ t2) t2 (Object_keys t2)); [done |].
  intros key Hkey. apply TestRules_get_app_r. intros Hin. by apply (Hdisjoint key).
Qed.

Lemma X13_witness :
  canAllow userPermissions
    ([("moduleA", Rules.Build None (Some ["read"]) None None)] ++
     [("moduleB", Rules.Build None (Some ["write"]) None None)])
  = (let* ok := canAllow userPermissions
                  [("moduleA", Rules.Build None (Some ["read"]) None None)] in
     if ok
     then canAllow userPermissions
            [("moduleB", Rules.Build None (Some ["write"]) None None)]
     else ret false).
Proof.
  apply (X13_canAllow_of_disjoint_parts userPermissions
           [("moduleA", Rules.Build None (Some ["read"]) None None)]
           [("moduleB", Rules.Build None (Some ["write"]) None None)]).
  - intros key Hin Hin'. apply list_elem_of_In in Hin. apply list_elem_of_In in Hin'.
    simpl in Hin, Hin'. destruct Hin as [<- | []]. destruct Hin' as [Heq | []].
    discriminate Heq.
  - intros Hin. apply list_elem_of_In in Hin. simpl in Hin.
    destruct Hin as [Heq | [Heq | []]]; discriminate Heq.
Defined.



Lemma bind_verdict (m : Run bool) :
  (let* ok := m in if ok then ret true else ret false) = m.
Proof.
  rewrite <- (bind_ret_r m) at 2. apply bind_ext. by intros [] _.
Qed.

(** X15. The aggregator on a single rule is the matcher on that rule with
    the label as its module, when the label is not the empty string: the two
    exported functions make the same run. *)
Theorem X15_canAllow_of_one_rule `{Engine} (p : Permissions) (key : string) (r : Rules.t) :
  key <> "" ->
  canAllow p [(key, r)] =
  checkPermissions p
    (Rules.Build (Some key) (Rules.abilities r) (Rules.checks r) (Rules.target r)).
Proof.
  intros Hkey.
  rewrite canAllow_is_conjunction.
  - simpl. unfold effective_rule; simpl. rewrite String.eqb_refl.
    apply bind_verdict.
  - simpl. intros Hin. apply list_elem_of_In in Hin. simpl in Hin.
    destruct Hin as [Heq | []]. by apply Hkey.
Qed.

Lemma X15_witness :
  canAllow userPermissions
    [("moduleB", Rules.Build (Some "moduleA") None (Some ["hasAccess"])
                   (Some (VObject [("isValidUser", VBoolean true)])))]
  = checkPermissions userPermissions
      (Rules.Build (Some "moduleB") None (Some ["hasAccess"])
         (Some (VObject [("isValidUser", VBoolean true)]))).
Proof.
  apply (X15_canAllow_of_one_rule userPermissions "moduleB"
           (Rules.Build (Some "moduleA") None (Some ["hasAccess"])
              (Some (VObject [("isValidUser", VBoolean true)])))).
  discriminate.
Defined.
